(** * Moltblox flowcharts generator: docs/generate_flowcharts_pdf.py

    A shallow embedding of the script that assembles the four-page
    "Moltblox flowcharts" story out of reportlab primitives and hands it
    to [doc.build].

    - Python values are Rocq data: [str] is [string], [int] is [Z] (list
      positions and lengths are [nat]), a list is a [list], a tuple is a
      product, [None] is [option].
    - reportlab's flowables ([Paragraph], [Spacer], [Table], [PageBreak])
      are the constructors of [Flowable]: the script only builds them, the
      library interprets them.
    - Lengths in points are [float]s in the source.  They are kept as the
      expressions the source writes ([2.8 * inch], [PAGE_W - 1.2 * inch]):
      [Num] records the arithmetic and never rounds.
    - [story.append(x)] is explicit state passing on the story; an index
      into a list is fallible and raises [IndexError].
    - The calls that leave the script ([os.path], [doc.build],
      [os.path.getsize], [print]) run in the monad [M] over a [World]; the
      library and the operating system are the variables of the section
      [Script], so every property holds whatever they do.
    - [script] takes the constructors of reportlab, [os.path.abspath] and
      [print] to return; [script_e] is the same module with every outside
      call able to raise and recorded in a trace.  The two agree when only
      [doc.build] and [os.path.getsize] raise ([faultless_run_agrees]). *)

From Stdlib Require Import ZArith QArith String Ascii DecimalString Bool Arith Lia List.
From Stdlib Require DecimalN DecimalPos.
Import ListNotations.

Open Scope string_scope.
Open Scope list_scope.
Open Scope nat_scope.

(** ** Python helpers *)

(** The line feed of the source's ['\n'] and the double quote of its
    markup attributes. *)
Definition nl : string := String (ascii_of_nat 10) EmptyString.
Definition dq : string := String (ascii_of_nat 34) EmptyString.

(** ['\u2194'], the left right arrow, in UTF-8. *)
Definition harr : string :=
  String "226"%char (String "134"%char (String "148"%char EmptyString)).

(** [s.replace(old, new)] for a one-character [old]. *)
Fixpoint str_replace (old : ascii) (new : string) (s : string) : string :=
  match s with
  | EmptyString => EmptyString
  | String c s' =>
      if Ascii.eqb c old then new ++ str_replace old new s'
      else String c (str_replace old new s')
  end.

(** [s[n:]] *)
Fixpoint str_from (n : nat) (s : string) : string :=
  match n, s with
  | O, _ => s
  | S n', String _ s' => str_from n' s'
  | S _, EmptyString => EmptyString
  end.

(** [sep.join(parts)] *)
Definition str_join (sep : string) (parts : list string) : string :=
  String.concat sep parts.

(** [range(n)], [range(start, stop, step)] and [enumerate(l)]. *)
Definition range (n : nat) : list nat := seq 0 n.

Fixpoint range_from (fuel start stop step : nat) : list nat :=
  match fuel with
  | O => []
  | S fuel' =>
      if start <? stop then start :: range_from fuel' (start + step) stop step
      else []
  end.

Definition range3 (start stop step : nat) : list nat :=
  range_from stop start stop step.

Definition enumerate {A : Type} (l : list A) : list (nat * A) :=
  combine (seq 0 (length l)) l.

(** ** Exceptions and results *)

Inductive Exn : Type :=
| IndexError
| OSError (msg : string)
| LibraryError (msg : string).

Inductive Result (A : Type) : Type :=
| Ok (a : A)
| Raise (e : Exn).

Arguments Ok {A} a.
Arguments Raise {A} e.

Definition rbind {A B : Type} (r : Result A) (k : A -> Result B) : Result B :=
  match r with
  | Ok a => k a
  | Raise e => Raise e
  end.

(** [l[i]] *)
Definition index {A : Type} (l : list A) (i : nat) : Result A :=
  match nth_error l i with
  | Some a => Ok a
  | None => Raise IndexError
  end.

(** A [for] loop whose body can raise: the first exception ends the loop. *)
Fixpoint for_each {X S : Type} (xs : list X) (body : X -> S -> Result S) (s : S)
  : Result S :=
  match xs with
  | [] => Ok s
  | x :: xs' => rbind (body x s) (for_each xs' body)
  end.

(** ** reportlab's data *)

(** Lengths and coordinates: the source's float expressions, unevaluated.
    [inch] and the page size [landscape(A4)] are the library's constants. *)
Inductive Num : Type :=
| Lit (q : Q)
| inch
| PAGE_W
| PAGE_H
| Mul (a b : Num)
| Sub (a b : Num)
| Div (a b : Num).

Declare Scope num_scope.
Delimit Scope num_scope with num.
Bind Scope num_scope with Num.
Notation "a * b" := (Mul a b) : num_scope.
Notation "a - b" := (Sub a b) : num_scope.
Notation "a / b" := (Div a b) : num_scope.

Inductive Color : Type :=
| HexColor (hex : string)
| white
| black.

Inductive Alignment : Type := TA_LEFT | TA_CENTER.

(** [ParagraphStyle(name, parent=styles[parent], ...)]: a keyword the call
    leaves out is [None] and inherited from the parent by the library. *)
Record ParagraphStyle : Type := mkStyle {
  style_name : string;
  parent : string;
  fontSize : Z;
  textColor : Color;
  fontName : string;
  alignment : Alignment;
  leading : option Z;
  spaceBefore : option Z;
  spaceAfter : option Z
}.

(** The tuples given to [TableStyle]. *)
Inductive CmdArg : Type :=
| AStr (s : string)
| ANum (q : Q)
| AColor (c : Color).

Inductive StyleCmd : Type :=
| Cmd (op : string) (start stop : Z * Z) (args : list CmdArg)
| CmdRadii (op : string) (radii : list Z).

(** Flowables, and what a table cell holds in this script: a list of
    flowables, one flowable, or a string. *)
Inductive Flowable : Type :=
| Paragraph (text : string) (style : ParagraphStyle)
| Spacer (width height : Z)
| Table (data : list (list Cell)) (colWidths : list Num)
        (rowHeights : option (list (option Num))) (cmds : list StyleCmd)
| PageBreak
with Cell : Type :=
| CellList (content : list Flowable)
| CellFlow (f : Flowable)
| CellStr (s : string).

(** [Table(data, colWidths=..., rowHeights=...)] carries no style yet;
    [t.setStyle(TableStyle(cmds))] adds the commands. *)
Definition mkTable (data : list (list Cell)) (colWidths : list Num)
  (rowHeights : option (list (option Num))) : Flowable :=
  Table data colWidths rowHeights [].

Definition setStyle (t : Flowable) (cmds : list StyleCmd) : Flowable :=
  match t with
  | Table d cw rh cs => Table d cw rh (cs ++ cmds)
  | _ => t
  end.

(** Python's truth value of a cell: an empty list and an empty string are
    false, an object is true. *)
Definition truthy (c : Cell) : bool :=
  match c with
  | CellList [] => false
  | CellList (_ :: _) => true
  | CellFlow _ => true
  | CellStr EmptyString => false
  | CellStr (String _ _) => true
  end.

(** What the page callback draws on the canvas. *)
Inductive CanvasOp : Type :=
| saveState
| setFillColor (c : Color)
| rect (x y w h : Num) (fill stroke : Z)
| circle (x y r : Num) (fill stroke : Z)
| restoreState.

Definition Callback : Type := list CanvasOp.

Record DocTemplate : Type := mkDoc {
  filename : string;
  pagesize : Num * Num;
  topMargin : Num;
  bottomMargin : Num;
  leftMargin : Num;
  rightMargin : Num
}.

(** ** Colors matching Moltblox design system (lines 15-30) *)

Definition TEAL : Color := HexColor "#14b8a6".
Definition TEAL_DARK : Color := HexColor "#0d9488".
Definition TEAL_BG : Color := HexColor "#0d3d38".
Definition CYAN : Color := HexColor "#00ffe5".
Definition PINK : Color := HexColor "#ff6ec7".
Definition AMBER : Color := HexColor "#f59e0b".
Definition CORAL : Color := HexColor "#ff6b6b".
Definition PURPLE : Color := HexColor "#a78bfa".
Definition GREEN : Color := HexColor "#22c55e".
Definition BLUE : Color := HexColor "#3b82f6".
Definition DARK_BG : Color := HexColor "#0A1A1A".
Definition SURFACE_MID : Color := HexColor "#111827".
Definition SURFACE_CARD : Color := HexColor "#1a2332".
Definition WHITE : Color := white.
Definition WHITE_70 : Color := HexColor "#b3b3b3".
Definition WHITE_40 : Color := HexColor "#666666".

(** ** Custom styles (lines 48-98) *)

Definition title_style : ParagraphStyle :=
  mkStyle "FlowTitle" "Title" 24 WHITE "Helvetica-Bold" TA_CENTER
          None None (Some 6%Z).
Definition subtitle_style : ParagraphStyle :=
  mkStyle "FlowSubtitle" "Normal" 11 WHITE_70 "Helvetica" TA_CENTER
          None None (Some 20%Z).
Definition box_title_style : ParagraphStyle :=
  mkStyle "BoxTitle" "Normal" 11 WHITE "Helvetica-Bold" TA_CENTER
          (Some 14%Z) None None.
Definition box_body_style : ParagraphStyle :=
  mkStyle "BoxBody" "Normal" 8 WHITE_70 "Helvetica" TA_CENTER
          (Some 10%Z) None None.
Definition phase_title_style : ParagraphStyle :=
  mkStyle "PhaseTitle" "Normal" 12 WHITE "Helvetica-Bold" TA_LEFT
          (Some 14%Z) None None.
Definition phase_body_style : ParagraphStyle :=
  mkStyle "PhaseBody" "Normal" 9 WHITE_70 "Helvetica" TA_LEFT
          (Some 12%Z) None None.
Definition layer_title_style : ParagraphStyle :=
  mkStyle "LayerTitle" "Normal" 11 WHITE "Helvetica-Bold" TA_CENTER
          (Some 14%Z) None None.
Definition layer_body_style : ParagraphStyle :=
  mkStyle "LayerBody" "Normal" 8 WHITE_70 "Helvetica" TA_CENTER
          (Some 10%Z) None None.
Definition arrow_style : ParagraphStyle :=
  mkStyle "Arrow" "Normal" 16 TEAL "Helvetica-Bold" TA_CENTER
          None (Some 2%Z) (Some 2%Z).
Definition small_arrow_style : ParagraphStyle :=
  mkStyle "SmallArrow" "Normal" 12 TEAL "Helvetica-Bold" TA_CENTER
          None (Some 1%Z) (Some 1%Z).

(** ** Helper: page background (lines 106-113) *)

Definition page_bg : Callback :=
  [ saveState;
    setFillColor DARK_BG;
    rect (Lit 0) (Lit 0) PAGE_W PAGE_H 1 0;
    setFillColor (HexColor "#0d3d3820");
    circle (PAGE_W - Lit 100) (PAGE_H - Lit 80) (Lit 200) 1 0;
    restoreState ].

(** ** PAGE 1: User Journey Flow (lines 119-202) *)

Definition journey_steps : list (string * string) :=
  [ ("1. Discovery", ("Bot discovers Moltblox via" ++ nl ++ "MCP tools or Submolt posts")%string);
    ("2. Connect Wallet", ("SIWE authentication" ++ nl ++ "Base chain wallet connect")%string);
    ("3. Browse Games", ("Explore trending, search," ++ nl ++ "filter by genre/rating")%string);
    ("4. Play Game", ("Launch WASM sandbox" ++ nl ++ "Real-time or turn-based")%string);
    ("5. Earn MOLT", ("Win tournaments, sell items," ++ nl ++ "create popular games")%string);
    ("6. Create Game", ("Use BaseGame template" ++ nl ++ "5 methods to implement")%string);
    ("7. Publish & Monetize", ("Set price, create items" ++ nl ++ "85% revenue to creator")%string);
    ("8. Community", ("Post in Submolts" ++ nl ++ "Rate games, give feedback")%string);
    ("9. Return (Heartbeat)", ("Auto-visit every 4 hours" ++ nl ++ "Check earnings & trending")%string) ].

(** Lines 137-148, one pass of the inner loop: the cell of column
    [col_idx] is appended to [row_data]. *)
Definition journey_cell (steps : list (string * string)) (row_idx col_idx : nat)
  (row_data : list Cell) : Result (list Cell) :=
  let step_idx := (row_idx * 3 + col_idx)%nat in
  if (step_idx <? length steps)%nat then
    rbind (index steps step_idx) (fun '(title, body) =>
      let cell_content :=
        [ Paragraph title box_title_style;
          Spacer 1 4;
          Paragraph (str_replace "010"%char "<br/>" body) box_body_style ] in
      Ok (row_data ++ [CellList cell_content]))
  else Ok (row_data ++ [CellStr EmptyString]).

Definition journey_row_data (steps : list (string * string)) (row_idx : nat)
  : Result (list Cell) :=
  for_each (range 3) (journey_cell steps row_idx) [].

(** Lines 151-155: an arrow column after every cell but the last, when the
    cell is not empty. *)
Definition right_arrow : Flowable := Paragraph "&#8594;" arrow_style.

Definition journey_full_row (row_data : list Cell) : list Cell :=
  fold_left
    (fun full_row '(i, cell) =>
       let full_row := full_row ++ [cell] in
       if (Z.of_nat i <? Z.of_nat (length row_data) - 1)%Z && truthy cell
       then full_row ++ [CellFlow right_arrow]
       else full_row)
    (enumerate row_data) [].

(** Lines 157-162 *)
Definition journey_col_widths (full_row : list Cell) : list Num :=
  fold_left
    (fun col_widths i =>
       if (i mod 2 =? 0)%nat then col_widths ++ [(Lit 2.8 * inch)%num]
       else col_widths ++ [(Lit 0.5 * inch)%num])
    (range (length full_row)) [].

(** Lines 166-181: the fixed commands, then a box around every filled cell
    at an even index. *)
Definition box_style_base : list StyleCmd :=
  [ Cmd "VALIGN" (0, 0)%Z (-1, -1)%Z [AStr "MIDDLE"];
    Cmd "ALIGN" (0, 0)%Z (-1, -1)%Z [AStr "CENTER"];
    Cmd "TOPPADDING" (0, 0)%Z (-1, -1)%Z [ANum 8];
    Cmd "BOTTOMPADDING" (0, 0)%Z (-1, -1)%Z [ANum 8];
    Cmd "LEFTPADDING" (0, 0)%Z (-1, -1)%Z [ANum 6];
    Cmd "RIGHTPADDING" (0, 0)%Z (-1, -1)%Z [ANum 6] ].

Definition journey_box_cmds (full_row : list Cell) : Result (list StyleCmd) :=
  for_each (range3 0 (length full_row) 2)
    (fun i box_style_cmds =>
       rbind (index full_row i) (fun cell =>
         if truthy cell then
           Ok (box_style_cmds ++
               [ Cmd "BACKGROUND" (Z.of_nat i, 0%Z) (Z.of_nat i, 0%Z) [AColor SURFACE_CARD];
                 Cmd "BOX" (Z.of_nat i, 0%Z) (Z.of_nat i, 0%Z) [ANum 1.5; AColor TEAL];
                 CmdRadii "ROUNDEDCORNERS" [8; 8; 8; 8]%Z ])
         else Ok box_style_cmds))
    box_style_base.

(** Lines 190-198: the arrow pointing down between two rows. *)
Definition journey_down_arrow : Flowable :=
  setStyle
    (mkTable [[CellFlow (Paragraph "&#8595;" arrow_style)]]
             [(PAGE_W - Lit 1.2 * inch)%num]
             (Some [Some (Lit 0.35 * inch)%num]))
    [ Cmd "ALIGN" (0, 0)%Z (0, 0)%Z [AStr "CENTER"];
      Cmd "VALIGN" (0, 0)%Z (0, 0)%Z [AStr "MIDDLE"] ].

(** Lines 135-200, one pass of the outer loop. *)
Definition journey_row (steps : list (string * string)) (row_idx : nat)
  (story : list Flowable) : Result (list Flowable) :=
  rbind (journey_row_data steps row_idx) (fun row_data =>
  let full_row := journey_full_row row_data in
  let col_widths := journey_col_widths full_row in
  let t := mkTable [full_row] col_widths (Some [Some (Lit 1.1 * inch)%num]) in
  rbind (journey_box_cmds full_row) (fun box_style_cmds =>
  let t := setStyle t box_style_cmds in
  let story := story ++ [t] in
  if (row_idx <? 2)%nat then
    Ok (story ++ [Spacer 1 2] ++ [journey_down_arrow] ++ [Spacer 1 2])
  else Ok story)).

Definition page1 (story : list Flowable) : Result (list Flowable) :=
  let story := story ++ [Paragraph "User Journey Flow" title_style] in
  let story := story ++
    [Paragraph "How bots and players interact with the Moltblox platform"
               subtitle_style] in
  rbind (for_each (range 3) (journey_row journey_steps) story) (fun story =>
  Ok (story ++ [PageBreak])).

(** * A sample platform

    One concrete library and file system to run the script on: paths are
    POSIX-like, the disk is a list of files with their sizes, and [build]
    fails when the disk is full. *)

Module Sample.

Record Disk : Type := mkDisk {
  cwd : string;
  files : list (string * Z);
  full : bool
}.

Definition hexval (c : Color) : string :=
  match c with
  | HexColor hex => "0x" ++ str_from 1 hex
  | white => "0xffffff"
  | black => "0x000000"
  end.

Definition abspath (d : Disk) (p : string) : string :=
  match p with
  | String "/" _ => p
  | _ => cwd d ++ "/" ++ p
  end.

(** What stands before the last slash, when there is one. *)
Fixpoint before_last_slash (s : string) : option string :=
  match s with
  | EmptyString => None
  | String c s' =>
      match before_last_slash s' with
      | Some d => Some (String c d)
      | None => if Ascii.eqb c "/"%char then Some EmptyString else None
      end
  end.

Definition dirname (p : string) : string :=
  match before_last_slash p with
  | Some d => d
  | None => EmptyString
  end.

Definition join (a b : string) : string := a ++ "/" ++ b.

Definition build (doc : DocTemplate) (story : list Flowable)
  (onFirstPage onLaterPages : Callback) (d : Disk)
  : Disk * list Flowable * Result unit :=
  if full d then (d, story, Raise (OSError "No space left on device"))
  else (mkDisk (cwd d) ((filename doc, 4096%Z) :: files d) false, [], Ok tt).

Fixpoint lookup (path : string) (fs : list (string * Z)) : option Z :=
  match fs with
  | [] => None
  | (p, size) :: rest => if String.eqb p path then Some size else lookup path rest
  end.

Definition getsize (d : Disk) (path : string) : Result Z :=
  match lookup path (files d) with
  | Some size => Ok size
  | None => Raise (OSError "No such file or directory")
  end.

Definition empty_disk : Disk := mkDisk "/srv/moltblox/docs" [] false.
Definition full_disk : Disk := mkDisk "/srv/moltblox/docs" [] true.

End Sample.

(** * The library and the operating system

    What the script calls and does not define.  [hexval] is reportlab's
    [Color.hexval()]; [abspath], [dirname] and [join] are [os.path]'s;
    [build] is [SimpleDocTemplate.build] and [getsize] is
    [os.path.getsize].  [Ext] is everything outside the interpreter that
    they can read or change: the working directory, the files.  [build]
    receives the story list itself, so it also returns what it left in it. *)

Section Script.

Variable Ext : Type.
Variable hexval : Color -> string.
Variable abspath : Ext -> string -> string.
Variable dirname : string -> string.
Variable join : string -> string -> string.
Variable build :
  DocTemplate -> list Flowable -> Callback -> Callback -> Ext ->
  Ext * list Flowable * Result unit.
Variable getsize : Ext -> string -> Result Z.

(** [f'<font color="#{color.hexval()[2:]}">'] *)
Definition font_open (color : Color) : string :=
  "<font color=" ++ dq ++ "#" ++ str_from 2 (hexval color) ++ dq ++ ">".

(** ** PAGE 2: Implementation Roadmap (lines 208-284) *)

Definition phases : list (Color * string * string * list string) :=
  [ (TEAL, "Phase 1: Foundation", "Database + Auth",
     [ "PostgreSQL with Prisma ORM schema";
       "SIWE wallet-based authentication";
       "JWT token management + Redis sessions";
       "Replace all mock routes with real queries" ]);
    (BLUE, "Phase 2: Blockchain", "Contracts + Wallet",
     [ "Deploy MoltToken, GameMarketplace, TournamentManager to Base Sepolia";
       "Add wagmi + RainbowKit to frontend";
       "Wire purchase flow through smart contracts";
       "Test token transfers end-to-end" ]);
    (PURPLE, "Phase 3: Integration", ("Frontend " ++ harr ++ " API")%string,
     [ "API client utility with auth headers";
       "React Query for data fetching + caching";
       "Replace all mock data with live API calls";
       "WebSocket connection for real-time features" ]);
    (AMBER, "Phase 4: Infrastructure", "Deploy",
     [ "Vercel (frontend) + Railway (API) + Neon (DB)";
       "Upstash Redis for caching + sessions";
       "Domain + SSL via Cloudflare";
       "Environment variables + secrets management" ]);
    (GREEN, "Phase 5: Polish", "Pre-Launch",
     [ "Cloudflare R2 for file/asset storage";
       "Sentry error monitoring";
       "Rate limiting + security review";
       "Load testing + documentation" ]) ].

(** Lines 245-267: the panel of one phase. *)
Definition phase_table (color : Color) (title subtitle : string)
  (items : list string) : Flowable :=
  let bullet_text :=
    str_join "<br/>" (map (fun item => "&bull; " ++ item)%string items) in
  let phase_cell :=
    [ Paragraph (font_open color ++ title ++ "</font>") phase_title_style;
      Paragraph ("<i>" ++ subtitle ++ "</i>")
        (mkStyle "PhaseSub" "Normal" 9 WHITE_40 "Helvetica-Oblique" TA_LEFT
                 (Some 11%Z) None None);
      Spacer 1 4;
      Paragraph bullet_text phase_body_style ] in
  setStyle
    (mkTable [[CellList phase_cell]] [(PAGE_W - Lit 1.4 * inch)%num] (Some [None]))
    [ Cmd "BACKGROUND" (0, 0)%Z (0, 0)%Z [AColor SURFACE_CARD];
      Cmd "BOX" (0, 0)%Z (0, 0)%Z [ANum 2; AColor color];
      Cmd "TOPPADDING" (0, 0)%Z (0, 0)%Z [ANum 10];
      Cmd "BOTTOMPADDING" (0, 0)%Z (0, 0)%Z [ANum 10];
      Cmd "LEFTPADDING" (0, 0)%Z (0, 0)%Z [ANum 14];
      Cmd "RIGHTPADDING" (0, 0)%Z (0, 0)%Z [ANum 14];
      Cmd "VALIGN" (0, 0)%Z (0, 0)%Z [AStr "TOP"] ].

(** Lines 272-280 and 323-331: the small arrow pointing down. *)
Definition small_down_arrow (height : Num) : Flowable :=
  setStyle
    (mkTable [[CellFlow (Paragraph "&#8595;" small_arrow_style)]]
             [(PAGE_W - Lit 1.4 * inch)%num]
             (Some [Some height]))
    [ Cmd "ALIGN" (0, 0)%Z (0, 0)%Z [AStr "CENTER"];
      Cmd "VALIGN" (0, 0)%Z (0, 0)%Z [AStr "MIDDLE"] ].

(** Lines 244-282: the loop over [enumerate(phases)]. *)
Definition phase_step (n : nat) (story : list Flowable)
  (p : nat * (Color * string * string * list string)) : list Flowable :=
  let '(i, (color, title, subtitle, items)) := p in
  let story := story ++ [phase_table color title subtitle items] in
  if (Z.of_nat i <? Z.of_nat n - 1)%Z then
    story ++ [Spacer 1 2] ++ [small_down_arrow (Lit 0.25 * inch)%num]
          ++ [Spacer 1 2]
  else story.

Definition phases_loop (phases : list (Color * string * string * list string))
  (story : list Flowable) : list Flowable :=
  fold_left (phase_step (length phases)) (enumerate phases) story.

Definition page2 (story : list Flowable) : list Flowable :=
  let story := story ++ [Paragraph "Implementation Roadmap" title_style] in
  let story := story ++
    [Paragraph "5-phase path from development to production launch"
               subtitle_style] in
  let story := phases_loop phases story in
  story ++ [PageBreak].

(** ** PAGE 3: System Architecture (lines 290-334) *)

Definition layers : list (Color * string * string) :=
  [ (HexColor "#06b6d4", "Clients",
     "Web Browser  |  MCP Agents (OpenClaw/Clawdbots)  |  Arena SDK  |  WebSocket Clients");
    (TEAL, "Frontend",
     "Next.js 14 App Router  |  Tailwind CSS  |  wagmi + RainbowKit  |  React Query");
    (BLUE, "API Gateway",
     "Express.js  |  SIWE Auth Middleware  |  JWT Validation  |  Rate Limiting  |  WebSocket (ws)");
    (PURPLE, "Services",
     ("GamePublishingService  |  PurchaseService  |  TournamentService  |  BracketGenerator"
      ++ nl ++
      "DiscoveryService  |  EloSystem  |  RankedMatchmaker  |  LeaderboardService  |  SpectatorHub")%string);
    (AMBER, "Data Layer",
     "PostgreSQL (Prisma ORM)  |  Redis (Upstash)  |  Cloudflare R2 (Assets)  |  WASM Runtime");
    (GREEN, "Blockchain",
     "Base L2 (Ethereum)  |  MoltToken (ERC-20)  |  GameMarketplace  |  TournamentManager") ].

(** The commands of a centred panel with a border of [color] and
    thickness 2 (lines 310-319, 350-359 and 383-392). *)
Definition panel_cmds (color : Color) : list StyleCmd :=
  [ Cmd "BACKGROUND" (0, 0)%Z (0, 0)%Z [AColor SURFACE_CARD];
    Cmd "BOX" (0, 0)%Z (0, 0)%Z [ANum 2; AColor color];
    Cmd "TOPPADDING" (0, 0)%Z (0, 0)%Z [ANum 10];
    Cmd "BOTTOMPADDING" (0, 0)%Z (0, 0)%Z [ANum 10];
    Cmd "LEFTPADDING" (0, 0)%Z (0, 0)%Z [ANum 12];
    Cmd "RIGHTPADDING" (0, 0)%Z (0, 0)%Z [ANum 12];
    Cmd "VALIGN" (0, 0)%Z (0, 0)%Z [AStr "MIDDLE"];
    Cmd "ALIGN" (0, 0)%Z (0, 0)%Z [AStr "CENTER"] ].

(** Lines 303-319: the panel of one layer. *)
Definition layer_table (color : Color) (title body : string) : Flowable :=
  let cell :=
    [ Paragraph (font_open color ++ "<b>" ++ title ++ "</b></font>")
                layer_title_style;
      Spacer 1 3;
      Paragraph (str_replace "010"%char "<br/>" body) layer_body_style ] in
  setStyle
    (mkTable [[CellList cell]] [(PAGE_W - Lit 1.4 * inch)%num] (Some [None]))
    (panel_cmds color).

(** Lines 302-332: the loop over [enumerate(layers)]. *)
Definition layer_step (n : nat) (story : list Flowable)
  (p : nat * (Color * string * string)) : list Flowable :=
  let '(i, (color, title, body)) := p in
  let story := story ++ [layer_table color title body] in
  if (Z.of_nat i <? Z.of_nat n - 1)%Z then
    story ++ [small_down_arrow (Lit 0.22 * inch)%num]
  else story.

Definition layers_loop (layers : list (Color * string * string))
  (story : list Flowable) : list Flowable :=
  fold_left (layer_step (length layers)) (enumerate layers) story.

Definition page3 (story : list Flowable) : list Flowable :=
  let story := story ++ [Paragraph "System Architecture" title_style] in
  let story := story ++
    [Paragraph "Layered architecture from clients to blockchain"
               subtitle_style] in
  let story := layers_loop layers story in
  story ++ [PageBreak].

(** ** PAGE 4: Revenue Flow (lines 340-491) *)

Definition full_width : Num := (PAGE_W - Lit 1.4 * inch)%num.

(** Lines 344-359: the player pays. *)
Definition player_cell : list Flowable :=
  [ Paragraph ("<font color=" ++ dq ++ "#06b6d4" ++ dq
               ++ "><b>Player / Bot</b></font>") layer_title_style;
    Spacer 1 3;
    Paragraph "Purchases game items, enters tournaments,<br/>buys cosmetics with MOLT tokens"
              layer_body_style ].

Definition player_table : Flowable :=
  setStyle (mkTable [[CellList player_cell]] [full_width] None)
           (panel_cmds (HexColor "#06b6d4")).

(** Lines 364-372 *)
Definition payment_arrow : Flowable :=
  setStyle
    (mkTable [[CellFlow (Paragraph "&#8595;  MOLT Payment  &#8595;" small_arrow_style)]]
             [full_width] (Some [Some (Lit 0.3 * inch)%num]))
    [ Cmd "ALIGN" (0, 0)%Z (0, 0)%Z [AStr "CENTER"];
      Cmd "VALIGN" (0, 0)%Z (0, 0)%Z [AStr "MIDDLE"] ].

(** Lines 377-392: the smart contract. *)
Definition contract_cell : list Flowable :=
  [ Paragraph ("<font color=" ++ dq ++ "#f59e0b" ++ dq
               ++ "><b>GameMarketplace Smart Contract</b></font>")
              layer_title_style;
    Spacer 1 3;
    Paragraph "On-chain escrow &amp; automatic split on Base L2" layer_body_style ].

Definition contract_table : Flowable :=
  setStyle (mkTable [[CellList contract_cell]] [full_width] None)
           (panel_cmds AMBER).

(** Lines 397-414: the two labels of the split. *)
Definition split_left : Flowable :=
  Paragraph "&#8601;  85% Creator Share"
    (mkStyle "SplitLeft" "Normal" 10 GREEN "Helvetica-Bold" TA_CENTER
             (Some 12%Z) None None).

Definition split_right : Flowable :=
  Paragraph "15% Platform Fee  &#8600;"
    (mkStyle "SplitRight" "Normal" 10 CORAL "Helvetica-Bold" TA_CENTER
             (Some 12%Z) None None).

Definition split_label : Flowable :=
  setStyle
    (mkTable [[CellFlow split_left; CellFlow split_right]]
             [(full_width / Lit 2)%num; (full_width / Lit 2)%num]
             (Some [Some (Lit 0.3 * inch)%num]))
    [ Cmd "ALIGN" (0, 0)%Z (-1, -1)%Z [AStr "CENTER"];
      Cmd "VALIGN" (0, 0)%Z (-1, -1)%Z [AStr "MIDDLE"] ].

(** Lines 419-444: two destination boxes side by side. *)
Definition creator_cell : list Flowable :=
  [ Paragraph ("<font color=" ++ dq ++ "#22c55e" ++ dq
               ++ "><b>Game Creator</b></font>") layer_title_style;
    Spacer 1 3;
    Paragraph "85% of all purchases<br/>Direct to wallet, instant<br/>No minimum payout"
              layer_body_style ].

Definition platform_cell : list Flowable :=
  [ Paragraph ("<font color=" ++ dq ++ "#ff6b6b" ++ dq
               ++ "><b>Platform Treasury</b></font>") layer_title_style;
    Spacer 1 3;
    Paragraph "15% platform fee<br/>Funds: tournaments, infra,<br/>development, moderation"
              layer_body_style ].

Definition narrow_width : Num := (PAGE_W - Lit 1.8 * inch)%num.

Definition destinations_table : Flowable :=
  setStyle
    (mkTable [[CellList creator_cell; CellList platform_cell]]
             [(narrow_width / Lit 2)%num; (narrow_width / Lit 2)%num] None)
    [ Cmd "BACKGROUND" (0, 0)%Z (0, 0)%Z [AColor SURFACE_CARD];
      Cmd "BACKGROUND" (1, 0)%Z (1, 0)%Z [AColor SURFACE_CARD];
      Cmd "BOX" (0, 0)%Z (0, 0)%Z [ANum 2; AColor GREEN];
      Cmd "BOX" (1, 0)%Z (1, 0)%Z [ANum 2; AColor CORAL];
      Cmd "TOPPADDING" (0, 0)%Z (-1, -1)%Z [ANum 10];
      Cmd "BOTTOMPADDING" (0, 0)%Z (-1, -1)%Z [ANum 10];
      Cmd "LEFTPADDING" (0, 0)%Z (-1, -1)%Z [ANum 12];
      Cmd "RIGHTPADDING" (0, 0)%Z (-1, -1)%Z [ANum 12];
      Cmd "VALIGN" (0, 0)%Z (-1, -1)%Z [AStr "MIDDLE"];
      Cmd "ALIGN" (0, 0)%Z (-1, -1)%Z [AStr "CENTER"] ].

(** Lines 454-491: additional revenue streams. *)
Definition streams : list (string * string) :=
  [ ("Tournament Entry Fees",
     ("Bots pay MOLT to enter" ++ nl ++ "Prize pool: 50/25/15/10 split")%string);
    ("Marketplace Cosmetics",
     ("Skins, badges, effects" ++ nl ++ "Creator-made virtual goods")%string);
    ("Premium Submolts",
     ("Exclusive communities" ++ nl ++ "Gated access via MOLT")%string);
    ("Spectator Tips",
     ("Watch bot vs bot matches" ++ nl ++ "Tip favorite competitors")%string) ].

Definition stream_cells : list Cell :=
  fold_left
    (fun stream_cells '(title, body) =>
       stream_cells ++
       [ CellList
           [ Paragraph ("<b>" ++ title ++ "</b>")
               (mkStyle "StreamTitle" "Normal" 9 CYAN "Helvetica-Bold" TA_CENTER
                        (Some 11%Z) None None);
             Spacer 1 3;
             Paragraph (str_replace "010"%char "<br/>" body)
               (mkStyle "StreamBody" "Normal" 8 WHITE_70 "Helvetica" TA_CENTER
                        (Some 10%Z) None None) ] ])
    streams [].

Definition streams_table : Flowable :=
  setStyle
    (mkTable [stream_cells] (repeat (narrow_width / Lit 4)%num 4) None)
    [ Cmd "BACKGROUND" (0, 0)%Z (-1, -1)%Z [AColor SURFACE_CARD];
      Cmd "BOX" (0, 0)%Z (0, 0)%Z [ANum 1; AColor TEAL];
      Cmd "BOX" (1, 0)%Z (1, 0)%Z [ANum 1; AColor TEAL];
      Cmd "BOX" (2, 0)%Z (2, 0)%Z [ANum 1; AColor TEAL];
      Cmd "BOX" (3, 0)%Z (3, 0)%Z [ANum 1; AColor TEAL];
      Cmd "TOPPADDING" (0, 0)%Z (-1, -1)%Z [ANum 8];
      Cmd "BOTTOMPADDING" (0, 0)%Z (-1, -1)%Z [ANum 8];
      Cmd "LEFTPADDING" (0, 0)%Z (-1, -1)%Z [ANum 6];
      Cmd "RIGHTPADDING" (0, 0)%Z (-1, -1)%Z [ANum 6];
      Cmd "VALIGN" (0, 0)%Z (-1, -1)%Z [AStr "TOP"];
      Cmd "ALIGN" (0, 0)%Z (-1, -1)%Z [AStr "CENTER"] ].

Definition page4 (story : list Flowable) : list Flowable :=
  let story := story ++ [Paragraph "Revenue Flow" title_style] in
  let story := story ++
    [Paragraph "How MOLT tokens flow through the Moltblox economy"
               subtitle_style] in
  let story := story ++ [player_table] in
  let story := story ++ [Spacer 1 4] in
  let story := story ++ [payment_arrow] in
  let story := story ++ [Spacer 1 4] in
  let story := story ++ [contract_table] in
  let story := story ++ [Spacer 1 4] in
  let story := story ++ [split_label] in
  let story := story ++ [Spacer 1 4] in
  let story := story ++ [destinations_table] in
  let story := story ++ [Spacer 1 20] in
  let story := story ++
    [Paragraph "Additional Revenue Streams"
       (mkStyle "RevTitle" "Normal" 14 WHITE "Helvetica-Bold" TA_CENTER
                None None (Some 10%Z))] in
  story ++ [streams_table].

(** ** The content of the whole document (lines 100-491) *)

Definition assemble (story : list Flowable) : Result (list Flowable) :=
  rbind (page1 story) (fun story =>
  let story := page2 story in
  let story := page3 story in
  Ok (page4 story)).

(** ** Running the script

    What the interpreter gives the script ([Env]) and what a run changes
    ([World]).  [w_story] is the list object bound to [story], shared with
    the library; [w_calls] records, in order, the calls that reach the file
    system. *)

Record Env : Type := mkEnv {
  script_file : string;
  argv : list string;
  environ : list (string * string)
}.

Inductive Call : Type :=
| CBuild (doc : DocTemplate) (story : list Flowable)
         (onFirstPage onLaterPages : Callback)
| CGetsize (path : string).

Record World : Type := mkWorld {
  w_story : list Flowable;
  w_ext : Ext;
  w_stdout : list string;
  w_calls : list Call
}.

Definition M (A : Type) : Type := World -> World * Result A.

Definition ret {A : Type} (a : A) : M A := fun w => (w, Ok a).

Definition bind {A B : Type} (m : M A) (k : A -> M B) : M B :=
  fun w =>
    match m w with
    | (w', Ok a) => k a w'
    | (w', Raise e) => (w', Raise e)
    end.

Notation "x <- m ;; k" := (bind m (fun x => k))
  (at level 61, m at next level, right associativity).
Notation "m ;; k" := (bind m (fun _ => k))
  (at level 61, right associativity).

(** [os.path.abspath(p)] *)
Definition os_abspath (p : string) : M string :=
  fun w => (w, Ok (abspath (w_ext w) p)).

(** [story = []] *)
Definition new_story : M unit :=
  fun w => (mkWorld [] (w_ext w) (w_stdout w) (w_calls w), Ok tt).

(** A stretch of [story.append(...)] statements. *)
Definition appending (f : list Flowable -> Result (list Flowable)) : M unit :=
  fun w =>
    match f (w_story w) with
    | Ok story => (mkWorld story (w_ext w) (w_stdout w) (w_calls w), Ok tt)
    | Raise e => (w, Raise e)
    end.

(** [doc.build(story, onFirstPage=..., onLaterPages=...)] *)
Definition doc_build (doc : DocTemplate) (onFirstPage onLaterPages : Callback)
  : M unit :=
  fun w =>
    let '(ext, story, r) :=
      build doc (w_story w) onFirstPage onLaterPages (w_ext w) in
    (mkWorld story ext (w_stdout w)
             (w_calls w ++ [CBuild doc (w_story w) onFirstPage onLaterPages]),
     r).

(** [os.path.getsize(path)] *)
Definition os_getsize (path : string) : M Z :=
  fun w =>
    (mkWorld (w_story w) (w_ext w) (w_stdout w) (w_calls w ++ [CGetsize path]),
     getsize (w_ext w) path).

(** [print(line)] *)
Definition print (line : string) : M unit :=
  fun w =>
    (mkWorld (w_story w) (w_ext w) (w_stdout w ++ [line]) (w_calls w), Ok tt).

(** [f'{n:,}']: the decimal digits in groups of three. *)
Fixpoint group3 (rev_digits : list ascii) : list ascii :=
  match rev_digits with
  | a :: b :: c :: ((_ :: _) as rest) => a :: b :: c :: ","%char :: group3 rest
  | _ => rev_digits
  end.

Definition format_thousands (n : Z) : string :=
  let digits := list_ascii_of_string (NilZero.string_of_uint (N.to_uint (Z.abs_N n))) in
  let grouped := string_of_list_ascii (rev (group3 (rev digits))) in
  if (n <? 0)%Z then ("-" ++ grouped)%string else grouped.

(** Line 34 *)
Definition output_path_of (abs_file : string) : string :=
  join (dirname abs_file) "moltblox-flowcharts.pdf".

(** Lines 36-43 *)
Definition SimpleDocTemplate (output_path : string) : DocTemplate :=
  mkDoc output_path (PAGE_W, PAGE_H)
        (Lit 0.6 * inch)%num (Lit 0.5 * inch)%num
        (Lit 0.6 * inch)%num (Lit 0.6 * inch)%num.

(** The module, top to bottom. *)
Definition script (env : Env) : M unit :=
  abs_file <- os_abspath (script_file env) ;;
  let output_path := output_path_of abs_file in
  let doc := SimpleDocTemplate output_path in
  new_story ;;
  appending assemble ;;
  doc_build doc page_bg page_bg ;;
  print ("Generated: " ++ output_path) ;;
  size <- os_getsize output_path ;;
  print ("Size: " ++ format_thousands size ++ " bytes").

(** The process starts with nothing printed and nothing called; [story]
    is unbound until line 100, which binds it to a new list. *)
Definition initial (ext : Ext) : World := mkWorld [] ext [] [].

Definition run (env : Env) (ext : Ext) : World * Result unit :=
  script env (initial ext).

(** The story the script assembles, as a value. *)
Definition the_story : list Flowable :=
  match assemble [] with
  | Ok story => story
  | Raise _ => []
  end.

(** ** Reading a story

    The observations the properties are stated with. *)

Definition is_page_break (f : Flowable) : bool :=
  match f with
  | PageBreak => true
  | _ => false
  end.

(** The segments between page breaks, in order. *)
Fixpoint split_pages (story : list Flowable) : list (list Flowable) :=
  match story with
  | [] => [[]]
  | f :: rest =>
      match split_pages rest with
      | [] => [[f]]
      | page :: pages =>
          if is_page_break f then [] :: page :: pages
          else (f :: page) :: pages
      end
  end.

(** The text of the paragraphs set in the title style. *)
Definition title_of (f : Flowable) : option string :=
  match f with
  | Paragraph text style =>
      if String.eqb (style_name style) "FlowTitle" then Some text else None
  | _ => None
  end.

Fixpoint titles (story : list Flowable) : list string :=
  match story with
  | [] => []
  | f :: rest =>
      match title_of f with
      | Some t => t :: titles rest
      | None => titles rest
      end
  end.

(** A separator: a one-cell table holding the down arrow and nothing else. *)
Definition is_down_arrow (f : Flowable) : bool :=
  match f with
  | Table [[CellFlow (Paragraph text _)]] _ _ _ => String.eqb text "&#8595;"
  | _ => false
  end.

Definition count_arrows (story : list Flowable) : nat :=
  length (filter is_down_arrow story).

(** Panels stacked with [sep] between two neighbours and nowhere else. *)
Fixpoint stacked (sep : list Flowable) (panels : list Flowable)
  : list Flowable :=
  match panels with
  | [] => []
  | p :: rest =>
      match rest with
      | [] => [p]
      | _ :: _ => p :: sep ++ stacked sep rest
      end
  end.

(** The panel of a phase and of a layer, from its tuple. *)
Definition phase_panel (p : Color * string * string * list string) : Flowable :=
  let '(color, title, subtitle, items) := p in
  phase_table color title subtitle items.

Definition layer_panel (l : Color * string * string) : Flowable :=
  let '(color, title, body) := l in
  layer_table color title body.

(** What separates two phases, two layers and two rows of the grid. *)
Definition phase_sep : list Flowable :=
  [Spacer 1 2; small_down_arrow (Lit 0.25 * inch)%num; Spacer 1 2].

Definition layer_sep : list Flowable :=
  [small_down_arrow (Lit 0.22 * inch)%num].

Definition row_sep : list Flowable :=
  [Spacer 1 2; journey_down_arrow; Spacer 1 2].

(** Every text a flowable shows. *)
Fixpoint texts (f : Flowable) : list string :=
  match f with
  | Paragraph text _ => [text]
  | Spacer _ _ => []
  | Table data _ _ _ => flat_map (flat_map cell_texts) data
  | PageBreak => []
  end
with cell_texts (c : Cell) : list string :=
  match c with
  | CellList content => flat_map texts content
  | CellFlow f => texts f
  | CellStr s => [s]
  end.

(** The percentages a text states: every run of decimal digits that is
    followed at once by a percent sign. *)
Definition digit_of (c : ascii) : option nat :=
  let n := nat_of_ascii c in
  if (48 <=? n) && (n <=? 57) then Some (n - 48) else None.

Fixpoint percents_from (acc : option nat) (s : string) : list nat :=
  match s with
  | EmptyString => []
  | String c s' =>
      match digit_of c with
      | Some d =>
          percents_from
            (Some (match acc with Some n => 10 * n + d | None => d end)) s'
      | None =>
          if Ascii.eqb c "%"%char then
            match acc with
            | Some n => n :: percents_from None s'
            | None => percents_from None s'
            end
          else percents_from None s'
      end
  end.

Definition percents (s : string) : list nat := percents_from None s.

Definition page_percents (page : list Flowable) : list nat :=
  flat_map percents (flat_map texts page).

(** The box of one journey step (lines 141-145). *)
Definition journey_box (step : string * string) : Cell :=
  CellList
    [ Paragraph (fst step) box_title_style;
      Spacer 1 4;
      Paragraph (str_replace "010"%char "<br/>" (snd step)) box_body_style ].

(** The [doc.build] calls of a log, and the story each was given. *)
Definition builds (calls : list Call) : list Call :=
  filter (fun c => match c with CBuild _ _ _ _ => true | _ => false end) calls.

Definition call_path (c : Call) : string :=
  match c with
  | CBuild doc _ _ _ => filename doc
  | CGetsize path => path
  end.

Definition built_stories (calls : list Call) : list (list Flowable) :=
  flat_map (fun c => match c with CBuild _ story _ _ => [story] | _ => [] end)
           calls.

(** The path of line 34 for a run from [ext]. *)
Definition output_path (env : Env) (ext : Ext) : string :=
  join (dirname (abspath ext (script_file env))) "moltblox-flowcharts.pdf".

(** ** The script, every outside call able to raise

    The same module once more, this time with every call that leaves the
    script written as a step that can raise: the calls into reportlab that
    build colours, styles, flowables and tables, [os.path], [doc.build],
    [os.path.getsize] and [print].  [fails] says whether a call raises in
    the world it is made in; [doc.build] and [os.path.getsize] raise as
    [build] and [getsize] say.  The trace records each call with its
    outcome. *)

Inductive Outcall : Type :=
| OColor (hex : string)
| OLandscape
| OAbspath (p : string)
| ODirname (p : string)
| OJoin (a b : string)
| ODocTemplate (doc : DocTemplate)
| OStyleSheet
| OStyle (style : ParagraphStyle)
| OFlowable (f : Flowable)
| OSetStyle (t : Flowable) (cmds : list StyleCmd)
| OHexval (c : Color)
| OBuild (doc : DocTemplate) (story : list Flowable)
         (onFirstPage onLaterPages : Callback)
| OPrint (line : string)
| OGetsize (path : string).

Variable fails : Outcall -> Ext -> option Exn.

Record Run : Type := mkRun {
  r_story : list Flowable;
  r_ext : Ext;
  r_stdout : list string;
  r_trace : list (Outcall * option Exn)
}.

Definition E (A : Type) : Type := Run -> Run * Result A.

Definition done {A : Type} (a : A) : E A := fun r => (r, Ok a).

Definition and_then {A B : Type} (m : E A) (k : A -> E B) : E B :=
  fun r =>
    match m r with
    | (r', Ok a) => k a r'
    | (r', Raise e) => (r', Raise e)
    end.

Notation "x <~ m ;; k" := (and_then m (fun x => k))
  (at level 61, m at next level, right associativity).
Notation "m ;;; k" := (and_then m (fun _ => k))
  (at level 61, right associativity).

(** One call: it is recorded, and raises when [fails] says so. *)
Definition call (c : Outcall) : E unit :=
  fun r =>
    match fails c (r_ext r) with
    | Some e =>
        (mkRun (r_story r) (r_ext r) (r_stdout r) (r_trace r ++ [(c, Some e)]),
         Raise e)
    | None =>
        (mkRun (r_story r) (r_ext r) (r_stdout r) (r_trace r ++ [(c, None)]),
         Ok tt)
    end.

Fixpoint calls (cs : list Outcall) : E unit :=
  match cs with
  | [] => done tt
  | c :: rest => call c ;;; calls rest
  end.

(** An error of the interpreter itself, such as [IndexError]. *)
Definition lift {A : Type} (x : Result A) : E A := fun r => (r, x).

(** The constructors of reportlab, as calls. *)
Definition paragraph (text : string) (style : ParagraphStyle) : E Flowable :=
  call (OFlowable (Paragraph text style)) ;;; done (Paragraph text style).

Definition spacer (width height : Z) : E Flowable :=
  call (OFlowable (Spacer width height)) ;;; done (Spacer width height).

Definition table (data : list (list Cell)) (colWidths : list Num)
  (rowHeights : option (list (option Num))) : E Flowable :=
  call (OFlowable (mkTable data colWidths rowHeights)) ;;;
  done (mkTable data colWidths rowHeights).

Definition set_style (t : Flowable) (cmds : list StyleCmd) : E Flowable :=
  call (OSetStyle t cmds) ;;; done (setStyle t cmds).

Definition new_style (style : ParagraphStyle) : E ParagraphStyle :=
  call (OStyle style) ;;; done style.

Definition hex_color (hex : string) : E Color :=
  call (OColor hex) ;;; done (HexColor hex).

Definition hexval_of (c : Color) : E string :=
  call (OHexval c) ;;; done (hexval c).

(** [story = []] and [story.append(f)] *)
Definition fresh_story : E unit :=
  fun r => (mkRun [] (r_ext r) (r_stdout r) (r_trace r), Ok tt).

Definition append_story (f : Flowable) : E unit :=
  fun r => (mkRun (r_story r ++ [f]) (r_ext r) (r_stdout r) (r_trace r), Ok tt).

(** A [for] loop with the variables it updates. *)
Fixpoint for_loop {X S : Type} (xs : list X) (body : X -> S -> E S) (s : S)
  : E S :=
  match xs with
  | [] => done s
  | x :: rest => s' <~ body x s ;; for_loop rest body s'
  end.

(** [doc.build], [os.path.getsize] and [print] *)
Definition build_doc (doc : DocTemplate) (onFirstPage onLaterPages : Callback)
  : E unit :=
  fun r =>
    let '(ext, story, outcome) :=
      build doc (r_story r) onFirstPage onLaterPages (r_ext r) in
    (mkRun story ext (r_stdout r)
       (r_trace r ++
        [(OBuild doc (r_story r) onFirstPage onLaterPages,
          match outcome with Ok _ => None | Raise e => Some e end)]),
     outcome).

Definition get_size (path : string) : E Z :=
  fun r =>
    (mkRun (r_story r) (r_ext r) (r_stdout r)
       (r_trace r ++
        [(OGetsize path,
          match getsize (r_ext r) path with Ok _ => None | Raise e => Some e end)]),
     getsize (r_ext r) path).

Definition print_line (line : string) : E unit :=
  call (OPrint line) ;;;
  (fun r => (mkRun (r_story r) (r_ext r) (r_stdout r ++ [line]) (r_trace r), Ok tt)).

(** [os.path.abspath(p)]: the answer depends on the working directory. *)
Definition abspath_of (p : string) : E string :=
  call (OAbspath p) ;;;
  (fun r => (r, Ok (abspath (r_ext r) p))).

(** Lines 15-98: the colours, the page size, the output path, the
    document and the styles. *)
Definition setup (env : Env) : E (string * DocTemplate) :=
  calls (map OColor
    [ "#14b8a6"; "#0d9488"; "#0d3d38"; "#00ffe5"; "#ff6ec7"; "#f59e0b";
      "#ff6b6b"; "#a78bfa"; "#22c55e"; "#3b82f6"; "#0A1A1A"; "#111827";
      "#1a2332"; "#b3b3b3"; "#666666" ]) ;;;
  call OLandscape ;;;
  abs_file <~ abspath_of (script_file env) ;;
  call (ODirname abs_file) ;;;
  call (OJoin (dirname abs_file) "moltblox-flowcharts.pdf") ;;;
  let output_path := output_path_of abs_file in
  call OLandscape ;;;
  call (ODocTemplate (SimpleDocTemplate output_path)) ;;;
  call OStyleSheet ;;;
  calls (map OStyle
    [ title_style; subtitle_style; box_title_style; box_body_style;
      phase_title_style; phase_body_style; layer_title_style;
      layer_body_style; arrow_style; small_arrow_style ]) ;;;
  done (output_path, SimpleDocTemplate output_path).

(** A table holding one arrow paragraph, with its style (lines 190-198,
    272-280, 323-331 and 364-372). *)
Definition arrow_table (text : string) (style : ParagraphStyle)
  (width height : Num) : E Flowable :=
  p <~ paragraph text style ;;
  t <~ table [[CellFlow p]] [width] (Some [Some height]) ;;
  set_style t
    [ Cmd "ALIGN" (0, 0)%Z (0, 0)%Z [AStr "CENTER"];
      Cmd "VALIGN" (0, 0)%Z (0, 0)%Z [AStr "MIDDLE"] ].

(** PAGE 1 (lines 119-202) *)
Definition journey_cell_e (steps : list (string * string))
  (row_idx col_idx : nat) (row_data : list Cell) : E (list Cell) :=
  let step_idx := row_idx * 3 + col_idx in
  if step_idx <? length steps then
    step <~ lift (index steps step_idx) ;;
    p1 <~ paragraph (fst step) box_title_style ;;
    sp <~ spacer 1 4 ;;
    p2 <~ paragraph (str_replace "010"%char "<br/>" (snd step)) box_body_style ;;
    done (row_data ++ [CellList [p1; sp; p2]])
  else done (row_data ++ [CellStr EmptyString]).

Definition journey_arrow_e (n : nat) (p : nat * Cell) (full_row : list Cell)
  : E (list Cell) :=
  let '(i, cell) := p in
  let full_row := full_row ++ [cell] in
  if (Z.of_nat i <? Z.of_nat n - 1)%Z && truthy cell then
    a <~ paragraph "&#8594;" arrow_style ;;
    done (full_row ++ [CellFlow a])
  else done full_row.

Definition journey_row_e (steps : list (string * string)) (row_idx : nat)
  (_ : unit) : E unit :=
  row_data <~ for_loop (range 3) (journey_cell_e steps row_idx) [] ;;
  full_row <~ for_loop (enumerate row_data)
                (journey_arrow_e (length row_data)) [] ;;
  let col_widths := journey_col_widths full_row in
  t <~ table [full_row] col_widths (Some [Some (Lit 1.1 * inch)%num]) ;;
  box_style_cmds <~ lift (journey_box_cmds full_row) ;;
  t <~ set_style t box_style_cmds ;;
  append_story t ;;;
  if row_idx <? 2 then
    sp <~ spacer 1 2 ;;
    append_story sp ;;;
    arrow <~ arrow_table "&#8595;" arrow_style
               (PAGE_W - Lit 1.2 * inch)%num (Lit 0.35 * inch)%num ;;
    append_story arrow ;;;
    sp <~ spacer 1 2 ;;
    append_story sp
  else done tt.

Definition page1_e (steps : list (string * string)) : E unit :=
  p <~ paragraph "User Journey Flow" title_style ;;
  append_story p ;;;
  p <~ paragraph "How bots and players interact with the Moltblox platform"
         subtitle_style ;;
  append_story p ;;;
  for_loop (range 3) (journey_row_e steps) tt ;;;
  p <~ call (OFlowable PageBreak) ;;
  append_story PageBreak.

(** [f'<font color="#{hex[2:]}">'] for the text [hex] that
    [color.hexval()] returned. *)
Definition font_tag (hex : string) : string :=
  "<font color=" ++ dq ++ "#" ++ str_from 2 hex ++ dq ++ ">".

(** PAGE 2 (lines 208-284) *)
Definition phase_step_e (n : nat)
  (p : nat * (Color * string * string * list string)) (_ : unit) : E unit :=
  let '(i, (color, title, subtitle, items)) := p in
  let bullet_text :=
    str_join "<br/>" (map (fun item => "&bull; " ++ item)%string items) in
  hex <~ hexval_of color ;;
  p1 <~ paragraph (font_tag hex ++ title ++ "</font>") phase_title_style ;;
  sub <~ new_style
           (mkStyle "PhaseSub" "Normal" 9 WHITE_40 "Helvetica-Oblique" TA_LEFT
                    (Some 11%Z) None None) ;;
  p2 <~ paragraph ("<i>" ++ subtitle ++ "</i>") sub ;;
  sp <~ spacer 1 4 ;;
  p3 <~ paragraph bullet_text phase_body_style ;;
  t <~ table [[CellList [p1; p2; sp; p3]]] [(PAGE_W - Lit 1.4 * inch)%num]
         (Some [None]) ;;
  t <~ set_style t
         [ Cmd "BACKGROUND" (0, 0)%Z (0, 0)%Z [AColor SURFACE_CARD];
           Cmd "BOX" (0, 0)%Z (0, 0)%Z [ANum 2; AColor color];
           Cmd "TOPPADDING" (0, 0)%Z (0, 0)%Z [ANum 10];
           Cmd "BOTTOMPADDING" (0, 0)%Z (0, 0)%Z [ANum 10];
           Cmd "LEFTPADDING" (0, 0)%Z (0, 0)%Z [ANum 14];
           Cmd "RIGHTPADDING" (0, 0)%Z (0, 0)%Z [ANum 14];
           Cmd "VALIGN" (0, 0)%Z (0, 0)%Z [AStr "TOP"] ] ;;
  append_story t ;;;
  if (Z.of_nat i <? Z.of_nat n - 1)%Z then
    sp <~ spacer 1 2 ;;
    append_story sp ;;;
    arrow <~ arrow_table "&#8595;" small_arrow_style
               (PAGE_W - Lit 1.4 * inch)%num (Lit 0.25 * inch)%num ;;
    append_story arrow ;;;
    sp <~ spacer 1 2 ;;
    append_story sp
  else done tt.

Definition page2_e : E unit :=
  p <~ paragraph "Implementation Roadmap" title_style ;;
  append_story p ;;;
  p <~ paragraph "5-phase path from development to production launch"
         subtitle_style ;;
  append_story p ;;;
  for_loop (enumerate phases) (phase_step_e (length phases)) tt ;;;
  call (OFlowable PageBreak) ;;;
  append_story PageBreak.

(** PAGE 3 (lines 290-334) *)
Definition layer_step_e (n : nat) (p : nat * (Color * string * string))
  (_ : unit) : E unit :=
  let '(i, (color, title, body)) := p in
  hex <~ hexval_of color ;;
  p1 <~ paragraph (font_tag hex ++ "<b>" ++ title ++ "</b></font>")
          layer_title_style ;;
  sp <~ spacer 1 3 ;;
  p2 <~ paragraph (str_replace "010"%char "<br/>" body) layer_body_style ;;
  t <~ table [[CellList [p1; sp; p2]]] [(PAGE_W - Lit 1.4 * inch)%num]
         (Some [None]) ;;
  t <~ set_style t (panel_cmds color) ;;
  append_story t ;;;
  if (Z.of_nat i <? Z.of_nat n - 1)%Z then
    arrow <~ arrow_table "&#8595;" small_arrow_style
               (PAGE_W - Lit 1.4 * inch)%num (Lit 0.22 * inch)%num ;;
    append_story arrow
  else done tt.

Definition page3_e : E unit :=
  p <~ paragraph "System Architecture" title_style ;;
  append_story p ;;;
  p <~ paragraph "Layered architecture from clients to blockchain"
         subtitle_style ;;
  append_story p ;;;
  call (OColor "#06b6d4") ;;;
  for_loop (enumerate layers) (layer_step_e (length layers)) tt ;;;
  call (OFlowable PageBreak) ;;;
  append_story PageBreak.

(** PAGE 4 (lines 340-491) *)

(** A title, a spacer and a body, as in lines 344-348, 377-381, 419-428. *)
Definition titled_cell (title body : string) : E (list Flowable) :=
  p1 <~ paragraph title layer_title_style ;;
  sp <~ spacer 1 3 ;;
  p2 <~ paragraph body layer_body_style ;;
  done [p1; sp; p2].

Definition append_spacer (height : Z) : E unit :=
  sp <~ spacer 1 height ;;
  append_story sp.

Definition stream_cell_e (stream : string * string) (stream_cells : list Cell)
  : E (list Cell) :=
  st1 <~ new_style
           (mkStyle "StreamTitle" "Normal" 9 CYAN "Helvetica-Bold" TA_CENTER
                    (Some 11%Z) None None) ;;
  p1 <~ paragraph ("<b>" ++ fst stream ++ "</b>") st1 ;;
  sp <~ spacer 1 3 ;;
  st2 <~ new_style
           (mkStyle "StreamBody" "Normal" 8 WHITE_70 "Helvetica" TA_CENTER
                    (Some 10%Z) None None) ;;
  p2 <~ paragraph (str_replace "010"%char "<br/>" (snd stream)) st2 ;;
  done (stream_cells ++ [CellList [p1; sp; p2]]).

Definition page4_e : E unit :=
  p <~ paragraph "Revenue Flow" title_style ;;
  append_story p ;;;
  p <~ paragraph "How MOLT tokens flow through the Moltblox economy"
         subtitle_style ;;
  append_story p ;;;
  player <~ titled_cell
    ("<font color=" ++ dq ++ "#06b6d4" ++ dq ++ "><b>Player / Bot</b></font>")
    "Purchases game items, enters tournaments,<br/>buys cosmetics with MOLT tokens" ;;
  t <~ table [[CellList player]] [full_width] None ;;
  color <~ hex_color "#06b6d4" ;;
  t <~ set_style t (panel_cmds color) ;;
  append_story t ;;;
  append_spacer 4 ;;;
  arrow <~ arrow_table "&#8595;  MOLT Payment  &#8595;" small_arrow_style
             full_width (Lit 0.3 * inch)%num ;;
  append_story arrow ;;;
  append_spacer 4 ;;;
  contract <~ titled_cell
    ("<font color=" ++ dq ++ "#f59e0b" ++ dq
     ++ "><b>GameMarketplace Smart Contract</b></font>")
    "On-chain escrow &amp; automatic split on Base L2" ;;
  t <~ table [[CellList contract]] [full_width] None ;;
  t <~ set_style t (panel_cmds AMBER) ;;
  append_story t ;;;
  append_spacer 4 ;;;
  st <~ new_style
          (mkStyle "SplitLeft" "Normal" 10 GREEN "Helvetica-Bold" TA_CENTER
                   (Some 12%Z) None None) ;;
  left <~ paragraph "&#8601;  85% Creator Share" st ;;
  st <~ new_style
          (mkStyle "SplitRight" "Normal" 10 CORAL "Helvetica-Bold" TA_CENTER
                   (Some 12%Z) None None) ;;
  right <~ paragraph "15% Platform Fee  &#8600;" st ;;
  t <~ table [[CellFlow left; CellFlow right]]
         [(full_width / Lit 2)%num; (full_width / Lit 2)%num]
         (Some [Some (Lit 0.3 * inch)%num]) ;;
  t <~ set_style t
         [ Cmd "ALIGN" (0, 0)%Z (-1, -1)%Z [AStr "CENTER"];
           Cmd "VALIGN" (0, 0)%Z (-1, -1)%Z [AStr "MIDDLE"] ] ;;
  append_story t ;;;
  append_spacer 4 ;;;
  creator <~ titled_cell
    ("<font color=" ++ dq ++ "#22c55e" ++ dq ++ "><b>Game Creator</b></font>")
    "85% of all purchases<br/>Direct to wallet, instant<br/>No minimum payout" ;;
  platform <~ titled_cell
    ("<font color=" ++ dq ++ "#ff6b6b" ++ dq
     ++ "><b>Platform Treasury</b></font>")
    "15% platform fee<br/>Funds: tournaments, infra,<br/>development, moderation" ;;
  t <~ table [[CellList creator; CellList platform]]
         [(narrow_width / Lit 2)%num; (narrow_width / Lit 2)%num] None ;;
  t <~ set_style t
         [ Cmd "BACKGROUND" (0, 0)%Z (0, 0)%Z [AColor SURFACE_CARD];
           Cmd "BACKGROUND" (1, 0)%Z (1, 0)%Z [AColor SURFACE_CARD];
           Cmd "BOX" (0, 0)%Z (0, 0)%Z [ANum 2; AColor GREEN];
           Cmd "BOX" (1, 0)%Z (1, 0)%Z [ANum 2; AColor CORAL];
           Cmd "TOPPADDING" (0, 0)%Z (-1, -1)%Z [ANum 10];
           Cmd "BOTTOMPADDING" (0, 0)%Z (-1, -1)%Z [ANum 10];
           Cmd "LEFTPADDING" (0, 0)%Z (-1, -1)%Z [ANum 12];
           Cmd "RIGHTPADDING" (0, 0)%Z (-1, -1)%Z [ANum 12];
           Cmd "VALIGN" (0, 0)%Z (-1, -1)%Z [AStr "MIDDLE"];
           Cmd "ALIGN" (0, 0)%Z (-1, -1)%Z [AStr "CENTER"] ] ;;
  append_story t ;;;
  append_spacer 20 ;;;
  st <~ new_style
          (mkStyle "RevTitle" "Normal" 14 WHITE "Helvetica-Bold" TA_CENTER
                   None None (Some 10%Z)) ;;
  p <~ paragraph "Additional Revenue Streams" st ;;
  append_story p ;;;
  cells <~ for_loop streams stream_cell_e [] ;;
  t <~ table [cells] (repeat (narrow_width / Lit 4)%num 4) None ;;
  t <~ set_style t
         [ Cmd "BACKGROUND" (0, 0)%Z (-1, -1)%Z [AColor SURFACE_CARD];
           Cmd "BOX" (0, 0)%Z (0, 0)%Z [ANum 1; AColor TEAL];
           Cmd "BOX" (1, 0)%Z (1, 0)%Z [ANum 1; AColor TEAL];
           Cmd "BOX" (2, 0)%Z (2, 0)%Z [ANum 1; AColor TEAL];
           Cmd "BOX" (3, 0)%Z (3, 0)%Z [ANum 1; AColor TEAL];
           Cmd "TOPPADDING" (0, 0)%Z (-1, -1)%Z [ANum 8];
           Cmd "BOTTOMPADDING" (0, 0)%Z (-1, -1)%Z [ANum 8];
           Cmd "LEFTPADDING" (0, 0)%Z (-1, -1)%Z [ANum 6];
           Cmd "RIGHTPADDING" (0, 0)%Z (-1, -1)%Z [ANum 6];
           Cmd "VALIGN" (0, 0)%Z (-1, -1)%Z [AStr "TOP"];
           Cmd "ALIGN" (0, 0)%Z (-1, -1)%Z [AStr "CENTER"] ] ;;
  append_story t.

(** The module, top to bottom (lines 15-499). *)
Definition script_e (env : Env) : E unit :=
  paths <~ setup env ;;
  let '(output_path, doc) := paths in
  fresh_story ;;;
  page1_e journey_steps ;;;
  page2_e ;;;
  page3_e ;;;
  page4_e ;;;
  build_doc doc page_bg page_bg ;;;
  print_line ("Generated: " ++ output_path) ;;;
  size <~ get_size output_path ;;
  print_line ("Size: " ++ format_thousands size ++ " bytes").

Definition run_e (env : Env) (ext : Ext) : Run * Result unit :=
  script_e env (mkRun [] ext [] []).

(** What a trace tells: no call in it raised, and a call in it raised [e]. *)
Definition returned (entry : Outcall * option Exn) : Prop := snd entry = None.

Definition quiet (trace : list (Outcall * option Exn)) : Prop :=
  Forall returned trace.

Definition raised_in (e : Exn) (trace : list (Outcall * option Exn)) : Prop :=
  exists c, In (c, Some e) trace.

(** A step propagates: from a quiet trace it either returns with a quiet
    trace, or raises what the last call of its trace raised, every call
    before having returned.  In both cases it only adds to the trace. *)
Definition propagates {A : Type} (m : E A) : Prop :=
  forall r, quiet (r_trace r) ->
    exists added, r_trace (fst (m r)) = r_trace r ++ added /\
    match snd (m r) with
    | Ok _ => quiet added
    | Raise e => exists c before, added = before ++ [(c, Some e)] /\ quiet before
    end.

(** ** Further observations *)

(** What line 148 appends when the step is missing. *)
Definition empty_cell : Cell := CellStr EmptyString.

(** [steps[3 * row_idx : 3 * row_idx + 3]], the steps of one row. *)
Definition row_steps (steps : list (string * string)) (row_idx : nat)
  : list (string * string) :=
  firstn 3 (skipn (row_idx * 3) steps).

(** The cells of a row and an arrow after every filled cell that is not
    the last one. *)
Fixpoint with_arrows (cells : list Cell) : list Cell :=
  match cells with
  | [] => []
  | c :: rest =>
      match rest with
      | [] => [c]
      | _ :: _ =>
          if truthy c then c :: CellFlow right_arrow :: with_arrows rest
          else c :: with_arrows rest
      end
  end.

(** The width of column [i] (lines 159-162). *)
Definition journey_col_width (i : nat) : Num :=
  if Nat.even i then (Lit 2.8 * inch)%num else (Lit 0.5 * inch)%num.

(** The three commands of a box at column [i] (lines 178-180). *)
Definition box_cmds_at (i : nat) : list StyleCmd :=
  [ Cmd "BACKGROUND" (Z.of_nat i, 0%Z) (Z.of_nat i, 0%Z) [AColor SURFACE_CARD];
    Cmd "BOX" (Z.of_nat i, 0%Z) (Z.of_nat i, 0%Z) [ANum 1.5; AColor TEAL];
    CmdRadii "ROUNDEDCORNERS" [8; 8; 8; 8]%Z ].

(** The columns that a list of style commands draws a box around. *)
Definition box_columns (cmds : list StyleCmd) : list Z :=
  flat_map
    (fun cmd =>
       match cmd with
       | Cmd op (col, _) _ _ => if String.eqb op "BOX" then [col] else []
       | CmdRadii _ _ => []
       end)
    cmds.

(** A table has as many column widths as each row has cells and, when row
    heights are given, as many as it has rows. *)
Definition table_well_shaped (f : Flowable) : bool :=
  match f with
  | Table data colWidths rowHeights _ =>
      forallb (fun row => length row =? length colWidths) data &&
      match rowHeights with
      | None => true
      | Some heights => length heights =? length data
      end
  | _ => true
  end.

(** reportlab's canvas, as far as [page_bg] uses it: the fill colour in
    force, the stack of graphics states that [saveState] pushes and
    [restoreState] pops, and the shapes painted so far, each with the fill
    colour it was painted in. *)
Record Canvas : Type := mkCanvas {
  fill_color : Color;
  saved_states : list Color;
  painted : list (CanvasOp * Color)
}.

Definition canvas_do (c : Canvas) (op : CanvasOp) : Canvas :=
  match op with
  | saveState =>
      mkCanvas (fill_color c) (fill_color c :: saved_states c) (painted c)
  | setFillColor color => mkCanvas color (saved_states c) (painted c)
  | rect _ _ _ _ _ _ | circle _ _ _ _ _ =>
      mkCanvas (fill_color c) (saved_states c)
               (painted c ++ [(op, fill_color c)])
  | restoreState =>
      match saved_states c with
      | color :: rest => mkCanvas color rest (painted c)
      | [] => c
      end
  end.

(** Calling a page callback on a canvas. *)
Definition call_on (callback : Callback) (c : Canvas) : Canvas :=
  fold_left canvas_do callback c.

(** [c in s] for a character [c]. *)
Fixpoint has_char (c : ascii) (s : string) : bool :=
  match s with
  | EmptyString => false
  | String c' s' => Ascii.eqb c' c || has_char c s'
  end.

(** [s.replace(',', '')] and [int(s)] for a string of decimal digits. *)
Definition strip_commas (s : string) : string :=
  string_of_list_ascii
    (filter (fun c => negb (Ascii.eqb c ","%char)) (list_ascii_of_string s)).

Definition parse_decimal (s : string) : option Z :=
  option_map (fun d => Z.of_N (N.of_uint d)) (NilZero.uint_of_string s).

(** An outside call raised [e] during the run from [ext], after the lines
    [printed] had been printed: either [doc.build] at line 497 or
    [os.path.getsize] at line 499. *)
Inductive raises_during (env : Env) (ext : Ext) : Exn -> list string -> Prop :=
| build_raises : forall ext1 story1 e,
    build (SimpleDocTemplate (output_path env ext)) the_story page_bg page_bg ext
      = (ext1, story1, Raise e) ->
    raises_during env ext e []
| getsize_raises : forall ext1 story1 e,
    build (SimpleDocTemplate (output_path env ext)) the_story page_bg page_bg ext
      = (ext1, story1, Ok tt) ->
    getsize ext1 (output_path env ext) = Raise e ->
    raises_during env ext e [("Generated: " ++ output_path env ext)%string].

(** * Properties *)

(** ** The assembled story *)

Lemma assemble_the_story : assemble [] = Ok the_story.
Proof.
  unfold the_story.
  destruct (assemble []) as [story | e] eqn:E; [reflexivity |].
  vm_compute in E. discriminate E.
Qed.

(** ** The run, statement by statement *)

Lemma script_steps (env : Env) (w : World) :
  let out := output_path env (w_ext w) in
  let doc := SimpleDocTemplate out in
  let calls1 := w_calls w ++ [CBuild doc the_story page_bg page_bg] in
  script env w =
  match build doc the_story page_bg page_bg (w_ext w) with
  | (ext1, story1, Raise e) =>
      (mkWorld story1 ext1 (w_stdout w) calls1, Raise e)
  | (ext1, story1, Ok _) =>
      let printed := w_stdout w ++ [("Generated: " ++ out)%string] in
      match getsize ext1 out with
      | Raise e =>
          (mkWorld story1 ext1 printed (calls1 ++ [CGetsize out]), Raise e)
      | Ok size =>
          (mkWorld story1 ext1
             (printed ++ [("Size: " ++ format_thousands size ++ " bytes")%string])
             (calls1 ++ [CGetsize out]),
           Ok tt)
      end
  end.
Proof.
  cbv zeta.
  unfold script, bind, os_abspath, new_story, appending, doc_build,
    os_getsize, print, output_path, output_path_of.
  cbn [w_story w_ext w_stdout w_calls].
  rewrite assemble_the_story.
  cbn [w_story w_ext w_stdout w_calls].
  destruct (build _ the_story page_bg page_bg (w_ext w)) as [[ext1 story1] [u | e]];
    [| reflexivity].
  cbn [w_story w_ext w_stdout w_calls].
  destruct (getsize ext1 _) as [size | e]; reflexivity.
Qed.

(** ** Four pages *)

(** C2: the assembled story holds three page breaks, which cut it into
    four segments; the segments begin with the title paragraphs 'User
    Journey Flow', 'Implementation Roadmap', 'System Architecture' and
    'Revenue Flow', in this order, and the story has no other title. *)
Theorem story_has_four_titled_pages :
  exists story,
    assemble [] = Ok story /\
    length (filter is_page_break story) = 3 /\
    map (@hd_error Flowable) (split_pages story) =
      [ Some (Paragraph "User Journey Flow" title_style);
        Some (Paragraph "Implementation Roadmap" title_style);
        Some (Paragraph "System Architecture" title_style);
        Some (Paragraph "Revenue Flow" title_style) ] /\
    titles story =
      [ "User Journey Flow"; "Implementation Roadmap";
        "System Architecture"; "Revenue Flow" ].
Proof.
  exists the_story. split; [apply assemble_the_story |].
  repeat split; vm_compute; reflexivity.
Qed.

(** ** The journey grid *)

Lemma index_in_bounds {A : Type} (l : list A) (i : nat) :
  i < length l -> exists a, index l i = Ok a.
Proof.
  intros Hi. unfold index.
  destruct (nth_error l i) as [a |] eqn:E.
  - exists a. reflexivity.
  - apply nth_error_None in E. lia.
Qed.

Lemma journey_cell_total (steps : list (string * string))
  (row_idx col_idx : nat) (row_data : list Cell) :
  exists row_data', journey_cell steps row_idx col_idx row_data = Ok row_data'.
Proof.
  unfold journey_cell.
  destruct (row_idx * 3 + col_idx <? length steps) eqn:Guard.
  - apply Nat.ltb_lt in Guard.
    destruct (index_in_bounds steps _ Guard) as [[title body] E].
    rewrite E. cbn [rbind]. eexists. reflexivity.
  - eexists. reflexivity.
Qed.

Lemma col_widths_grow (l : list nat) (acc : list Num) :
  length
    (fold_left
       (fun col_widths i =>
          if i mod 2 =? 0 then col_widths ++ [(Lit 2.8 * inch)%num]
          else col_widths ++ [(Lit 0.5 * inch)%num])
       l acc) = length acc + length l.
Proof.
  revert acc. induction l as [| i l IH]; intros acc; cbn [fold_left length].
  - lia.
  - rewrite IH. destruct (i mod 2 =? 0); rewrite length_app; cbn [length]; lia.
Qed.

Lemma journey_col_widths_length (full_row : list Cell) :
  length (journey_col_widths full_row) = length full_row.
Proof.
  unfold journey_col_widths, range.
  rewrite col_widths_grow, length_seq. reflexivity.
Qed.

(** C7: the guard keeps [journey_steps[step_idx]] in bounds whatever the
    list; with nine steps, each of the three rows gets three boxes and no
    empty cell, five entries once the arrows are in (boxes at 0, 2, 4,
    arrows at 1, 3), and as many column widths as entries. *)
Theorem journey_grid_well_formed (steps : list (string * string))
  (row_idx : nat) :
  length steps = 9 -> row_idx < 3 ->
  (forall (any_steps : list (string * string)) r c row_data,
      exists row_data', journey_cell any_steps r c row_data = Ok row_data') /\
  (exists a b c,
      index steps (row_idx * 3) = Ok a /\
      index steps (row_idx * 3 + 1) = Ok b /\
      index steps (row_idx * 3 + 2) = Ok c /\
      journey_row_data steps row_idx =
        Ok [journey_box a; journey_box b; journey_box c] /\
      journey_full_row [journey_box a; journey_box b; journey_box c] =
        [ journey_box a; CellFlow right_arrow; journey_box b;
          CellFlow right_arrow; journey_box c ] /\
      journey_col_widths
        [ journey_box a; CellFlow right_arrow; journey_box b;
          CellFlow right_arrow; journey_box c ] =
        [ (Lit 2.8 * inch)%num; (Lit 0.5 * inch)%num; (Lit 2.8 * inch)%num;
          (Lit 0.5 * inch)%num; (Lit 2.8 * inch)%num ]) /\
  (forall full_row,
      length (journey_col_widths full_row) = length full_row).
Proof.
  intros Hlen Hrow.
  split; [intros; apply journey_cell_total |].
  split; [| apply journey_col_widths_length].
  do 9 (destruct steps as [| [? ?] steps]; [discriminate Hlen |]).
  destruct steps; [| discriminate Hlen].
  destruct row_idx as [| [| [| row_idx]]]; [| | | lia];
    do 3 eexists; repeat split; reflexivity.
Qed.

(** ** Separators *)

Lemma phases_fold (n : nat) (ps : list (Color * string * string * list string)) :
  forall (k : nat) (story : list Flowable),
    n = k + length ps ->
    fold_left (phase_step n) (combine (seq k (length ps)) ps) story =
    story ++ stacked phase_sep (map phase_panel ps).
Proof.
  induction ps as [| p ps IH]; intros k story Hn.
  - cbn. rewrite app_nil_r. reflexivity.
  - cbn [length seq combine fold_left map].
    rewrite (IH (S k)) by (cbn [length] in Hn; lia).
    destruct p as [[[color title] subtitle] items].
    cbn [phase_step phase_panel].
    destruct ps as [| q ps].
    + cbn [length] in Hn.
      destruct (Z.ltb_spec (Z.of_nat k) (Z.of_nat n - 1)) as [Hlt | Hge]; [lia |].
      cbn [map stacked]. rewrite app_nil_r. reflexivity.
    + cbn [length] in Hn.
      destruct (Z.ltb_spec (Z.of_nat k) (Z.of_nat n - 1)) as [Hlt | Hge]; [| lia].
      cbn [map stacked]. unfold phase_sep.
      repeat rewrite <- app_assoc. reflexivity.
Qed.

Lemma layers_fold (n : nat) (ls : list (Color * string * string)) :
  forall (k : nat) (story : list Flowable),
    n = k + length ls ->
    fold_left (layer_step n) (combine (seq k (length ls)) ls) story =
    story ++ stacked layer_sep (map layer_panel ls).
Proof.
  induction ls as [| l ls IH]; intros k story Hn.
  - cbn. rewrite app_nil_r. reflexivity.
  - cbn [length seq combine fold_left map].
    rewrite (IH (S k)) by (cbn [length] in Hn; lia).
    destruct l as [[color title] body].
    cbn [layer_step layer_panel].
    destruct ls as [| q ls].
    + cbn [length] in Hn.
      destruct (Z.ltb_spec (Z.of_nat k) (Z.of_nat n - 1)) as [Hlt | Hge]; [lia |].
      cbn [map stacked]. rewrite app_nil_r. reflexivity.
    + cbn [length] in Hn.
      destruct (Z.ltb_spec (Z.of_nat k) (Z.of_nat n - 1)) as [Hlt | Hge]; [| lia].
      cbn [map stacked]. unfold layer_sep.
      repeat rewrite <- app_assoc. reflexivity.
Qed.

Lemma count_arrows_app (a b : list Flowable) :
  count_arrows (a ++ b) = count_arrows a + count_arrows b.
Proof.
  unfold count_arrows. rewrite filter_app, length_app. reflexivity.
Qed.

(** One arrow in the separator, none in the panels: one arrow less than
    there are panels. *)
Lemma count_arrows_stacked (sep panels : list Flowable) :
  count_arrows sep = 1 ->
  Forall (fun p => is_down_arrow p = false) panels ->
  count_arrows (stacked sep panels) = length panels - 1.
Proof.
  intros Hsep Hpanels.
  induction Hpanels as [| p rest Hp Hrest IH]; [reflexivity |].
  destruct rest as [| q rest].
  - cbn [stacked]. unfold count_arrows. cbn [filter]. rewrite Hp. reflexivity.
  - change (stacked sep (p :: q :: rest))
      with ([p] ++ sep ++ stacked sep (q :: rest)).
    rewrite !count_arrows_app, IH, Hsep.
    unfold count_arrows at 1. cbn [filter]. rewrite Hp. cbn [length]. lia.
Qed.

Lemma phase_panels_plain (ps : list (Color * string * string * list string)) :
  Forall (fun p => is_down_arrow p = false) (map phase_panel ps).
Proof.
  induction ps as [| [[[color title] subtitle] items] ps IH];
    constructor; [reflexivity | exact IH].
Qed.

Lemma layer_panels_plain (ls : list (Color * string * string)) :
  Forall (fun p => is_down_arrow p = false) (map layer_panel ls).
Proof.
  induction ls as [| [[color title] body] ls IH];
    constructor; [reflexivity | exact IH].
Qed.

(** A pass of the grid's loop only appends to the story. *)
Lemma journey_row_appends (steps : list (string * string)) (row_idx : nat)
  (story : list Flowable) :
  journey_row steps row_idx story =
  rbind (journey_row steps row_idx []) (fun items => Ok (story ++ items)).
Proof.
  unfold journey_row.
  destruct (journey_row_data steps row_idx) as [row_data | e]; [| reflexivity].
  cbn [rbind].
  destruct (journey_box_cmds (journey_full_row row_data)) as [cmds | e];
    [| reflexivity].
  cbn [rbind].
  destruct (row_idx <? 2); cbn [rbind app];
    repeat rewrite <- app_assoc; reflexivity.
Qed.

(** C8: the loop over the phases and the loop over the layers append the
    panels with one separator between two neighbours and none after the
    last, whatever the list, so one arrow less than panels; the three rows
    of the grid are appended the same way; in the assembled story that is
    2 arrows on page 1, 4 on page 2 and 5 on page 3. *)
Theorem separators_between_panels :
  (forall ps story,
      phases_loop ps story = story ++ stacked phase_sep (map phase_panel ps)) /\
  (forall ps, count_arrows (phases_loop ps []) = length ps - 1) /\
  (forall ls story,
      layers_loop ls story = story ++ stacked layer_sep (map layer_panel ls)) /\
  (forall ls, count_arrows (layers_loop ls []) = length ls - 1) /\
  (exists t0 t1 t2,
      Forall (fun t => is_down_arrow t = false) [t0; t1; t2] /\
      forall story,
        for_each (range 3) (journey_row journey_steps) story =
        Ok (story ++ stacked row_sep [t0; t1; t2])) /\
  length phases = 5 /\ length layers = 6 /\
  map count_arrows (split_pages the_story) = [2; 4; 5; 0].
Proof.
  assert (Hphases : forall ps story,
    phases_loop ps story = story ++ stacked phase_sep (map phase_panel ps)).
  { intros ps story. unfold phases_loop, enumerate.
    apply phases_fold. reflexivity. }
  assert (Hlayers : forall ls story,
    layers_loop ls story = story ++ stacked layer_sep (map layer_panel ls)).
  { intros ls story. unfold layers_loop, enumerate.
    apply layers_fold. reflexivity. }
  split; [exact Hphases |].
  split.
  { intros ps. rewrite Hphases. cbn [app].
    rewrite count_arrows_stacked, length_map;
      [reflexivity | reflexivity | apply phase_panels_plain]. }
  split; [exact Hlayers |].
  split.
  { intros ls. rewrite Hlayers. cbn [app].
    rewrite count_arrows_stacked, length_map;
      [reflexivity | reflexivity | apply layer_panels_plain]. }
  split.
  { assert (Hrows : exists t0 t1 t2,
      journey_row journey_steps 0 [] = Ok (t0 :: row_sep) /\
      journey_row journey_steps 1 [] = Ok (t1 :: row_sep) /\
      journey_row journey_steps 2 [] = Ok [t2] /\
      Forall (fun t => is_down_arrow t = false) [t0; t1; t2]).
    { do 3 eexists.
      split; [vm_compute; reflexivity |].
      split; [vm_compute; reflexivity |].
      split; [vm_compute; reflexivity |].
      repeat constructor. }
    destruct Hrows as (t0 & t1 & t2 & E0 & E1 & E2 & Hplain).
    exists t0, t1, t2. split; [exact Hplain |].
    intros story. unfold range. cbn [seq for_each].
    rewrite journey_row_appends, E0. cbn [rbind for_each].
    rewrite journey_row_appends, E1. cbn [rbind for_each].
    rewrite journey_row_appends, E2. cbn [rbind stacked].
    repeat rewrite <- app_assoc. reflexivity. }
  split; [reflexivity |].
  split; [reflexivity |].
  vm_compute. reflexivity.
Qed.

(** ** Revenue figures *)

(** C9: journey step 7, 'Publish & Monetize', reads '85% revenue to
    creator'; on page 4 the split label reads '85% Creator Share' and '15%
    Platform Fee', the box titled 'Game Creator' reads '85% of all
    purchases' and the box titled 'Platform Treasury' reads '15% platform
    fee'; these are the cells of the destinations table, in this order;
    pages 1 and 4 state no other percentage, and the two add up to 100. *)
Theorem revenue_split_consistent :
  index journey_steps 6 =
    Ok ("7. Publish & Monetize",
        ("Set price, create items" ++ nl ++ "85% revenue to creator")%string) /\
  percents ("Set price, create items" ++ nl ++ "85% revenue to creator") = [85] /\
  texts split_label =
    ["&#8601;  85% Creator Share"; "15% Platform Fee  &#8600;"] /\
  map percents (texts split_label) = [[85]; [15]] /\
  map texts creator_cell =
    [ [("<font color=" ++ dq ++ "#22c55e" ++ dq
        ++ "><b>Game Creator</b></font>")%string];
      [];
      ["85% of all purchases<br/>Direct to wallet, instant<br/>No minimum payout"] ] /\
  map texts platform_cell =
    [ [("<font color=" ++ dq ++ "#ff6b6b" ++ dq
        ++ "><b>Platform Treasury</b></font>")%string];
      [];
      ["15% platform fee<br/>Funds: tournaments, infra,<br/>development, moderation"] ] /\
  page_percents creator_cell = [85] /\
  page_percents platform_cell = [15] /\
  (exists widths heights cmds,
      destinations_table =
        Table [[CellList creator_cell; CellList platform_cell]]
              widths heights cmds) /\
  (exists p1 p2 p3 p4,
      split_pages the_story = [p1; p2; p3; p4] /\
      In (Table [[journey_box
                    ("7. Publish & Monetize",
                     ("Set price, create items" ++ nl ++ "85% revenue to creator")%string);
                  CellFlow right_arrow;
                  journey_box
                    ("8. Community",
                     ("Post in Submolts" ++ nl ++ "Rate games, give feedback")%string);
                  CellFlow right_arrow;
                  journey_box
                    ("9. Return (Heartbeat)",
                     ("Auto-visit every 4 hours" ++ nl ++ "Check earnings & trending")%string)]]
                (journey_col_widths (repeat empty_cell 5))
                (Some [Some (Lit 1.1 * inch)%num])
                (box_style_base ++ box_cmds_at 0 ++ box_cmds_at 2 ++ box_cmds_at 4))
         p1 /\
      In split_label p4 /\ In destinations_table p4 /\
      page_percents p1 = [85] /\
      page_percents p4 = [85; 15; 85; 15]) /\
  list_sum (page_percents [split_label]) = 100 /\
  list_sum (page_percents creator_cell ++ page_percents platform_cell) = 100.
Proof.
  split; [reflexivity |].
  split; [reflexivity |].
  split; [reflexivity |].
  split; [reflexivity |].
  split; [reflexivity |].
  split; [reflexivity |].
  split; [reflexivity |].
  split; [reflexivity |].
  split; [do 3 eexists; reflexivity |].
  split; [| split; reflexivity].
  destruct (split_pages the_story) as [| p1 [| p2 [| p3 [| p4 [| p5 rest]]]]] eqn:E;
    vm_compute in E; try discriminate E.
  injection E as <- <- <- <-.
  do 4 eexists.
  split; [reflexivity |].
  split; [apply (nth_error_In _ 10); vm_compute; reflexivity |].
  split; [apply (nth_error_In _ 8); vm_compute; reflexivity |].
  split; [apply (nth_error_In _ 10); vm_compute; reflexivity |].
  repeat split; vm_compute; reflexivity.
Qed.

(** ** The run *)

Lemma run_steps (env : Env) (ext : Ext) :
  let out := output_path env ext in
  let doc := SimpleDocTemplate out in
  let called := CBuild doc the_story page_bg page_bg in
  run env ext =
  match build doc the_story page_bg page_bg ext with
  | (ext1, story1, Raise e) => (mkWorld story1 ext1 [] [called], Raise e)
  | (ext1, story1, Ok _) =>
      let first_line := ("Generated: " ++ out)%string in
      match getsize ext1 out with
      | Raise e =>
          (mkWorld story1 ext1 [first_line] [called; CGetsize out], Raise e)
      | Ok size =>
          (mkWorld story1 ext1
             [first_line; ("Size: " ++ format_thousands size ++ " bytes")%string]
             [called; CGetsize out],
           Ok tt)
      end
  end.
Proof.
  cbv zeta. unfold run. rewrite script_steps. reflexivity.
Qed.

Lemma run_builds_once (env : Env) (ext : Ext) :
  builds (w_calls (fst (run env ext))) =
  [CBuild (SimpleDocTemplate (output_path env ext)) the_story page_bg page_bg].
Proof.
  rewrite run_steps.
  destruct (build _ the_story page_bg page_bg ext) as [[ext1 story1] [u | e]];
    [destruct (getsize ext1 _) as [size | e] |]; reflexivity.
Qed.

(** C3: the one file the run builds is at
    [join(dirname(abspath(__file__)), 'moltblox-flowcharts.pdf')], every
    call that reaches the file system names that path, and a run with the
    same script file but other arguments and another environment is the
    same run. *)
Theorem output_path_fixed (env env' : Env) (ext : Ext) :
  script_file env' = script_file env ->
  output_path env ext =
    join (dirname (abspath ext (script_file env))) "moltblox-flowcharts.pdf" /\
  map call_path (builds (w_calls (fst (run env ext)))) = [output_path env ext] /\
  Forall (fun c => call_path c = output_path env ext)
         (w_calls (fst (run env ext))) /\
  run env' ext = run env ext.
Proof.
  intros Hfile.
  split; [reflexivity |].
  split; [rewrite run_builds_once; reflexivity |].
  split.
  - rewrite run_steps.
    destruct (build _ the_story page_bg page_bg ext) as [[ext1 story1] [u | e]];
      [destruct (getsize ext1 _) as [size | e] |];
      repeat constructor.
  - rewrite !run_steps. unfold output_path. rewrite Hfile. reflexivity.
Qed.

(** With the other calls taken to return: when [doc.build] or
    [os.path.getsize] raises, the run ends with that very exception,
    nothing is printed after it and the build is not tried again. *)
Lemma build_and_getsize_errors (env : Env) (ext : Ext) (e : Exn)
  (printed : list string) :
  raises_during env ext e printed ->
  snd (run env ext) = Raise e /\
  w_stdout (fst (run env ext)) = printed /\
  length (builds (w_calls (fst (run env ext)))) = 1 /\
  (forall e', snd (run env ext) = Raise e' ->
              exists printed', raises_during env ext e' printed').
Proof.
  intros Hraise.
  split; [| split; [| split]].
  - destruct Hraise as [ext1 story1 e Hbuild | ext1 story1 e Hbuild Hsize];
      rewrite run_steps, Hbuild; [| rewrite Hsize]; reflexivity.
  - destruct Hraise as [ext1 story1 e Hbuild | ext1 story1 e Hbuild Hsize];
      rewrite run_steps, Hbuild; [| rewrite Hsize]; reflexivity.
  - rewrite run_builds_once. reflexivity.
  - intros e'. rewrite run_steps.
    destruct (build _ the_story page_bg page_bg ext)
      as [[ext1 story1] [[] | e1]] eqn:Hbuild.
    + destruct (getsize ext1 _) as [size | e1] eqn:Hsize; cbn [snd]; intros He.
      * discriminate He.
      * injection He as <-. eexists. eapply getsize_raises; eassumption.
    + cbn [snd]. intros He. injection He as <-.
      eexists. eapply build_raises; eassumption.
Qed.

(** C5: the run calls [doc.build] once, before any other outside call,
    with the whole assembled story and [page_bg] for the first and for the
    later pages; afterwards [story] is as the library left it: the script
    appends nothing more. *)
Theorem build_once_after_assembly (env : Env) (ext : Ext) :
  let w := fst (run env ext) in
  let doc := SimpleDocTemplate (output_path env ext) in
  assemble [] = Ok the_story /\
  builds (w_calls w) = [CBuild doc the_story page_bg page_bg] /\
  hd_error (w_calls w) = Some (CBuild doc the_story page_bg page_bg) /\
  w_story w = snd (fst (build doc the_story page_bg page_bg ext)).
Proof.
  cbv zeta.
  split; [apply assemble_the_story |].
  split; [apply run_builds_once |].
  rewrite run_steps.
  destruct (build _ the_story page_bg page_bg ext) as [[ext1 story1] [u | e]];
    [destruct (getsize ext1 _) as [size | e] |]; split; reflexivity.
Qed.

Lemma run_builds_the_story (env : Env) (ext : Ext) :
  built_stories (w_calls (fst (run env ext))) = [the_story].
Proof.
  rewrite run_steps.
  destruct (build _ the_story page_bg page_bg ext) as [[ext1 story1] [u | e]];
    [destruct (getsize ext1 _) as [size | e] |]; reflexivity.
Qed.

(** * Further properties *)

(** ** The grid, whatever the steps *)

Lemma journey_cell_appends (steps : list (string * string))
  (row_idx col_idx : nat) (row_data : list Cell) :
  journey_cell steps row_idx col_idx row_data =
  Ok (row_data ++
      [ match nth_error steps (row_idx * 3 + col_idx) with
        | Some step => journey_box step
        | None => empty_cell
        end ]).
Proof.
  unfold journey_cell, index.
  destruct (Nat.ltb_spec (row_idx * 3 + col_idx) (length steps)) as [Hin | Hout].
  - destruct (nth_error steps (row_idx * 3 + col_idx)) as [[title body] |] eqn:E.
    + reflexivity.
    + apply nth_error_None in E. lia.
  - destruct (nth_error steps (row_idx * 3 + col_idx)) as [step |] eqn:E.
    + assert (Hsome : nth_error steps (row_idx * 3 + col_idx) <> None)
        by congruence.
      apply nth_error_Some in Hsome. lia.
    + reflexivity.
Qed.

Lemma journey_row_data_cells (steps : list (string * string))
  (row_idx : nat) :
  journey_row_data steps row_idx =
  Ok (map journey_box (row_steps steps row_idx) ++
      repeat empty_cell (3 - length (row_steps steps row_idx))).
Proof.
  unfold journey_row_data, range. cbn [seq for_each].
  rewrite journey_cell_appends. cbn [rbind for_each].
  rewrite journey_cell_appends. cbn [rbind for_each].
  rewrite journey_cell_appends. cbn [rbind app].
  rewrite <- !nth_error_skipn. unfold row_steps.
  destruct (skipn (row_idx * 3) steps) as [| a [| b [| c rest]]]; reflexivity.
Qed.

Lemma full_row_fold (n : nat) (cells : list Cell) :
  forall (k : nat) (acc : list Cell),
    n = k + length cells ->
    fold_left
      (fun full_row '(i, cell) =>
         let full_row := full_row ++ [cell] in
         if (Z.of_nat i <? Z.of_nat n - 1)%Z && truthy cell
         then full_row ++ [CellFlow right_arrow]
         else full_row)
      (combine (seq k (length cells)) cells) acc =
    acc ++ with_arrows cells.
Proof.
  induction cells as [| c rest IH]; intros k acc Hn.
  - cbn. rewrite app_nil_r. reflexivity.
  - cbn [length seq combine fold_left].
    rewrite (IH (S k)) by (cbn [length] in Hn; lia).
    destruct rest as [| c' rest'].
    + cbn [length] in Hn.
      destruct (Z.ltb_spec (Z.of_nat k) (Z.of_nat n - 1)) as [Hlt | Hge]; [lia |].
      cbn [andb with_arrows]. rewrite app_nil_r. reflexivity.
    + cbn [length] in Hn.
      destruct (Z.ltb_spec (Z.of_nat k) (Z.of_nat n - 1)) as [Hlt | Hge]; [| lia].
      cbn [andb].
      change (with_arrows (c :: c' :: rest'))
        with (if truthy c
              then c :: CellFlow right_arrow :: with_arrows (c' :: rest')
              else c :: with_arrows (c' :: rest')).
      destruct (truthy c); repeat rewrite <- app_assoc; reflexivity.
Qed.

Lemma journey_full_row_arrows (row_data : list Cell) :
  journey_full_row row_data = with_arrows row_data.
Proof.
  unfold journey_full_row, enumerate.
  apply (full_row_fold (length row_data) row_data 0 []). reflexivity.
Qed.

Lemma with_arrows_head (c : Cell) (rest : list Cell) :
  exists tail, with_arrows (c :: rest) = c :: tail.
Proof.
  destruct rest as [| c' rest']; [exists []; reflexivity |].
  change (with_arrows (c :: c' :: rest'))
    with (if truthy c
          then c :: CellFlow right_arrow :: with_arrows (c' :: rest')
          else c :: with_arrows (c' :: rest')).
  destruct (truthy c); eexists; reflexivity.
Qed.

Lemma with_arrows_last (cells : list Cell) (d : Cell) :
  last (with_arrows cells) d = last cells d.
Proof.
  induction cells as [| c rest IH]; [reflexivity |].
  destruct rest as [| c' rest']; [reflexivity |].
  change (with_arrows (c :: c' :: rest'))
    with (if truthy c
          then c :: CellFlow right_arrow :: with_arrows (c' :: rest')
          else c :: with_arrows (c' :: rest')).
  destruct (with_arrows_head c' rest') as [tail Htail].
  change (last (c :: c' :: rest') d) with (last (c' :: rest') d).
  rewrite <- IH, Htail.
  destruct (truthy c); reflexivity.
Qed.

(** With filled cells in front, cell [i] stands at position [2 * i] and an
    arrow right after it, unless it is the last cell of the row. *)
Lemma with_arrows_filled_prefix (boxes : list Cell) :
  Forall (fun b => truthy b = true) boxes ->
  forall (rest : list Cell) (i : nat) (c : Cell),
    nth_error boxes i = Some c ->
    nth_error (with_arrows (boxes ++ rest)) (2 * i) = Some c /\
    (S i < length (boxes ++ rest) ->
     nth_error (with_arrows (boxes ++ rest)) (2 * i + 1) =
       Some (CellFlow right_arrow)).
Proof.
  induction 1 as [| b boxes Hb Hboxes IH]; intros rest i c Hi.
  - destruct i; discriminate Hi.
  - destruct (boxes ++ rest) as [| c' tail] eqn:Etail.
    + apply app_eq_nil in Etail. destruct Etail as [-> ->].
      destruct i as [| i]; [| destruct i; discriminate Hi].
      cbn in Hi. injection Hi as <-.
      split; [reflexivity |]. cbn [length app]. lia.
    + cbn [app]. rewrite Etail.
      change (with_arrows (b :: c' :: tail))
        with (if truthy b
              then b :: CellFlow right_arrow :: with_arrows (c' :: tail)
              else b :: with_arrows (c' :: tail)).
      rewrite Hb.
      destruct i as [| i].
      * cbn in Hi. injection Hi as <-. split; reflexivity.
      * cbn [nth_error] in Hi.
        specialize (IH rest i c Hi). rewrite Etail in IH.
        destruct IH as [IHcell IHarrow].
        replace (2 * S i) with (S (S (2 * i))) by lia.
        replace (S (S (2 * i)) + 1) with (S (S (2 * i + 1))) by lia.
        cbn [nth_error length].
        split; [exact IHcell |].
        intros Hlen. apply IHarrow. cbn [length]. lia.
Qed.

Lemma with_arrows_all_filled_length (cells : list Cell) :
  Forall (fun c => truthy c = true) cells ->
  length (with_arrows cells) = 2 * length cells - 1.
Proof.
  induction 1 as [| c rest Hc Hrest IH]; [reflexivity |].
  destruct rest as [| c' rest']; [reflexivity |].
  change (with_arrows (c :: c' :: rest'))
    with (if truthy c
          then c :: CellFlow right_arrow :: with_arrows (c' :: rest')
          else c :: with_arrows (c' :: rest')).
  rewrite Hc. cbn [length] in *. lia.
Qed.

(** X2: whatever the cells, the row with its arrows starts with the first
    cell and ends with the last one (never with an arrow), and an arrow
    follows exactly the filled cells that are not last. *)
Theorem journey_full_row_shape (row_data : list Cell) (d : Cell) :
  journey_full_row row_data = with_arrows row_data /\
  hd_error (journey_full_row row_data) = hd_error row_data /\
  last (journey_full_row row_data) d = last row_data d.
Proof.
  rewrite journey_full_row_arrows.
  split; [reflexivity |]. split; [| apply with_arrows_last].
  destruct row_data as [| c rest]; [reflexivity |].
  destruct (with_arrows_head c rest) as [tail ->]. reflexivity.
Qed.

(** X3: when every cell is filled, cell [i] of the row is at index [2 * i]
    and an arrow at every odd index: [2 * n - 1] entries for [n] cells. *)
Theorem journey_full_row_alternates (row_data : list Cell) (i : nat)
  (c : Cell) :
  Forall (fun c => truthy c = true) row_data ->
  nth_error row_data i = Some c ->
  nth_error (journey_full_row row_data) (2 * i) = Some c /\
  (S i < length row_data ->
   nth_error (journey_full_row row_data) (2 * i + 1) =
     Some (CellFlow right_arrow)) /\
  length (journey_full_row row_data) = 2 * length row_data - 1.
Proof.
  intros Hfilled Hi.
  rewrite journey_full_row_arrows.
  destruct (with_arrows_filled_prefix row_data Hfilled [] i c Hi)
    as [Hcell Harrow].
  rewrite app_nil_r in Hcell, Harrow.
  split; [exact Hcell |]. split; [exact Harrow |].
  apply with_arrows_all_filled_length. exact Hfilled.
Qed.

Lemma mod2_even (i : nat) : (i mod 2 =? 0) = Nat.even i.
Proof.
  destruct (Nat.even i) eqn:E.
  - apply Nat.even_spec in E. destruct E as [k ->].
    rewrite Nat.mul_comm, Nat.Div0.mod_mul. reflexivity.
  - apply Nat.eqb_neq. intros Hmod.
    apply Nat.Div0.mod_divides in Hmod. destruct Hmod as [k Hk].
    assert (Heven : Nat.even i = true)
      by (apply Nat.even_spec; exists k; exact Hk).
    congruence.
Qed.

Lemma col_widths_fold (l : list nat) (acc : list Num) :
  fold_left
    (fun col_widths i =>
       if i mod 2 =? 0 then col_widths ++ [(Lit 2.8 * inch)%num]
       else col_widths ++ [(Lit 0.5 * inch)%num])
    l acc = acc ++ map journey_col_width l.
Proof.
  revert acc. induction l as [| i l IH]; intros acc; cbn [fold_left map].
  - rewrite app_nil_r. reflexivity.
  - rewrite IH. unfold journey_col_width at 2. rewrite <- mod2_even.
    destruct (i mod 2 =? 0); rewrite <- app_assoc; reflexivity.
Qed.

(** X4: whatever the row, column [i] is 2.8 inch wide when [i] is even and
    0.5 inch wide when [i] is odd, and no width is given past the row. *)
Theorem journey_col_widths_by_parity (full_row : list Cell) (i : nat) :
  nth_error (journey_col_widths full_row) i =
  if i <? length full_row then
    Some (if Nat.even i then (Lit 2.8 * inch)%num else (Lit 0.5 * inch)%num)
  else None.
Proof.
  unfold journey_col_widths, range.
  rewrite col_widths_fold. cbn [app].
  rewrite nth_error_map, nth_error_seq.
  destruct (i <? length full_row); reflexivity.
Qed.

Lemma range_from_In (fuel : nat) :
  forall s n i,
    n <= s + fuel ->
    (In i (range_from fuel s n 2) <-> (s <= i < n /\ Nat.even (i - s) = true)).
Proof.
  induction fuel as [| fuel IH]; intros s n i Hfuel; cbn [range_from].
  - split; [intros [] | intros [[? ?] _]; lia].
  - destruct (Nat.ltb_spec s n) as [Hlt | Hge].
    + cbn [In]. rewrite IH by lia. split.
      * intros [<- | [[Hlo Hhi] Heven]].
        -- split; [lia |]. rewrite Nat.sub_diag. reflexivity.
        -- split; [lia |].
           replace (i - s) with (S (S (i - (s + 2)))) by lia.
           rewrite Nat.even_succ_succ. exact Heven.
      * intros [[Hlo Hhi] Heven].
        destruct (Nat.eq_dec s i) as [-> | Hne]; [left; reflexivity |].
        right.
        assert (Hodd : i <> s + 1).
        { intros ->. replace (s + 1 - s) with 1 in Heven by lia.
          discriminate Heven. }
        split; [lia |].
        replace (i - s) with (S (S (i - (s + 2)))) in Heven by lia.
        rewrite Nat.even_succ_succ in Heven. exact Heven.
    + split; [intros [] | intros [[? ?] _]; lia].
Qed.

Lemma range3_even_In (n i : nat) :
  In i (range3 0 n 2) <-> (i < n /\ Nat.even i = true).
Proof.
  unfold range3. rewrite range_from_In by lia. rewrite Nat.sub_0_r.
  split; intros [H1 H2]; (split; [lia | exact H2]).
Qed.

Lemma box_cmds_fold (full_row : list Cell) (xs : list nat) :
  Forall (fun i => i < length full_row) xs ->
  forall acc,
    for_each xs
      (fun i box_style_cmds =>
         rbind (index full_row i) (fun cell =>
           if truthy cell then
             Ok (box_style_cmds ++
                 [ Cmd "BACKGROUND" (Z.of_nat i, 0%Z) (Z.of_nat i, 0%Z)
                       [AColor SURFACE_CARD];
                   Cmd "BOX" (Z.of_nat i, 0%Z) (Z.of_nat i, 0%Z)
                       [ANum 1.5; AColor TEAL];
                   CmdRadii "ROUNDEDCORNERS" [8; 8; 8; 8]%Z ])
           else Ok box_style_cmds))
      acc =
    Ok (acc ++
        flat_map
          (fun i => if truthy (nth i full_row empty_cell) then box_cmds_at i
                    else [])
          xs).
Proof.
  induction 1 as [| i xs Hi Hxs IH]; intros acc; cbn [for_each flat_map].
  - rewrite app_nil_r. reflexivity.
  - unfold index.
    destruct (nth_error full_row i) as [cell |] eqn:E;
      [| apply nth_error_None in E; lia].
    rewrite (nth_error_nth _ _ empty_cell E). cbn [rbind].
    destruct (truthy cell); cbn [rbind]; rewrite IH.
    + unfold box_cmds_at. rewrite <- app_assoc. reflexivity.
    + reflexivity.
Qed.

Lemma journey_box_cmds_value (full_row : list Cell) :
  journey_box_cmds full_row =
  Ok (box_style_base ++
      flat_map
        (fun i => if truthy (nth i full_row empty_cell) then box_cmds_at i
                  else [])
        (range3 0 (length full_row) 2)).
Proof.
  unfold journey_box_cmds. apply box_cmds_fold.
  apply Forall_forall. intros i Hi. apply range3_even_In in Hi. tauto.
Qed.

Lemma box_columns_app (a b : list StyleCmd) :
  box_columns (a ++ b) = box_columns a ++ box_columns b.
Proof. unfold box_columns. apply flat_map_app. Qed.

Lemma box_columns_flat (full_row : list Cell) (xs : list nat) (z : Z) :
  In z
    (box_columns
       (flat_map
          (fun i => if truthy (nth i full_row empty_cell) then box_cmds_at i
                    else [])
          xs)) <->
  exists j, In j xs /\ truthy (nth j full_row empty_cell) = true /\
            z = Z.of_nat j.
Proof.
  induction xs as [| j xs IH]; cbn [flat_map].
  - split; [intros [] | intros [j [[] _]]].
  - rewrite box_columns_app, in_app_iff, IH. split.
    + intros [Hhere | [k [Hk [Htruthy Hz]]]].
      * destruct (truthy (nth j full_row empty_cell)) eqn:E; [| destruct Hhere].
        cbn in Hhere. destruct Hhere as [<- | []].
        exists j. split; [left; reflexivity |]. split; [exact E | reflexivity].
      * exists k. split; [right; exact Hk |]. split; assumption.
    + intros [k [[<- | Hk] [Htruthy Hz]]].
      * left. rewrite Htruthy. cbn. left. symmetry. exact Hz.
      * right. exists k. split; [exact Hk |]. split; assumption.
Qed.

(** X5: the style loop never raises, whatever the row; it keeps the six
    fixed commands in front and draws a box around column [i] exactly when
    [i] is an even index of the row whose cell is filled. *)
Theorem journey_box_cmds_boxes (full_row : list Cell) :
  exists cmds,
    journey_box_cmds full_row = Ok cmds /\
    firstn 6 cmds = box_style_base /\
    forall i,
      In (Z.of_nat i) (box_columns cmds) <->
      (i < length full_row /\ Nat.even i = true /\
       truthy (nth i full_row empty_cell) = true).
Proof.
  eexists. split; [apply journey_box_cmds_value |].
  split; [reflexivity |].
  intros i. rewrite box_columns_app, in_app_iff, box_columns_flat. split.
  - intros [Hbase | [j [Hj [Htruthy Hz]]]]; [destruct Hbase |].
    apply Nat2Z.inj in Hz. subst j.
    apply range3_even_In in Hj. tauto.
  - intros [Hlen [Heven Htruthy]]. right. exists i.
    split; [apply range3_even_In; tauto |]. split; [exact Htruthy | reflexivity].
Qed.

(** The table of a grid row, from its cells and its commands. *)
Lemma journey_row_value (steps : list (string * string)) (row_idx : nat)
  (story : list Flowable) :
  exists row_data cmds,
    journey_row_data steps row_idx = Ok row_data /\
    length row_data = 3 /\
    journey_box_cmds (journey_full_row row_data) = Ok cmds /\
    journey_row steps row_idx story =
    Ok (story ++
        [Table [journey_full_row row_data]
               (journey_col_widths (journey_full_row row_data))
               (Some [Some (Lit 1.1 * inch)%num]) cmds] ++
        (if row_idx <? 2 then row_sep else [])).
Proof.
  unfold journey_row.
  rewrite journey_row_data_cells. cbn [rbind].
  set (row_data := map journey_box (row_steps steps row_idx) ++
                   repeat empty_cell (3 - length (row_steps steps row_idx))).
  rewrite journey_box_cmds_value. cbn [rbind].
  exists row_data. eexists.
  split; [reflexivity |]. split.
  { unfold row_data. rewrite length_app, length_map, repeat_length.
    assert (length (row_steps steps row_idx) <= 3)
      by (unfold row_steps; apply firstn_le_length).
    lia. }
  split; [apply journey_box_cmds_value |].
  destruct (row_idx <? 2); cbn [setStyle mkTable app];
    repeat rewrite <- app_assoc; reflexivity.
Qed.

Lemma row_table_plain (row_data : list Cell) (widths : list Num)
  (heights : option (list (option Num))) (cmds : list StyleCmd) :
  length row_data = 3 ->
  is_down_arrow (Table [journey_full_row row_data] widths heights cmds) = false.
Proof.
  intros Hlen. rewrite journey_full_row_arrows.
  destruct row_data as [| c0 [| c1 [| c2 [| c3 rest]]]]; try discriminate Hlen.
  cbn [with_arrows].
  destruct (truthy c0), (truthy c1), c0 as [content | [] | text];
    reflexivity.
Qed.

Lemma row_table_well_shaped (full_row : list Cell)
  (heights : option Num) (cmds : list StyleCmd) :
  table_well_shaped
    (Table [full_row] (journey_col_widths full_row) (Some [heights]) cmds) = true.
Proof.
  cbn [table_well_shaped forallb length].
  rewrite journey_col_widths_length, Nat.eqb_refl. reflexivity.
Qed.

Lemma row_steps_first9 (steps : list (string * string)) (row_idx : nat) :
  row_idx < 3 ->
  row_steps (firstn 9 steps) row_idx = row_steps steps row_idx.
Proof.
  intros Hrow. unfold row_steps.
  rewrite skipn_firstn_comm, firstn_firstn.
  replace (Nat.min 3 (9 - row_idx * 3)) with 3 by lia. reflexivity.
Qed.

Lemma journey_row_first9 (steps : list (string * string)) (row_idx : nat)
  (story : list Flowable) :
  row_idx < 3 ->
  journey_row (firstn 9 steps) row_idx story = journey_row steps row_idx story.
Proof.
  intros Hrow. unfold journey_row.
  rewrite !journey_row_data_cells, (row_steps_first9 _ _ Hrow). reflexivity.
Qed.

(** X7: the grid shows the first nine steps only: entries of
    [journey_steps] past the ninth change nothing of what page 1 appends. *)
Theorem journey_rows_ignore_extra_steps (steps : list (string * string))
  (story : list Flowable) :
  for_each (range 3) (journey_row (firstn 9 steps)) story =
  for_each (range 3) (journey_row steps) story.
Proof.
  unfold range. cbn [seq for_each].
  rewrite journey_row_first9 by lia.
  destruct (journey_row steps 0 story) as [s0 | e]; [| reflexivity].
  cbn [rbind]. rewrite journey_row_first9 by lia.
  destruct (journey_row steps 1 s0) as [s1 | e]; [| reflexivity].
  cbn [rbind]. rewrite journey_row_first9 by lia.
  reflexivity.
Qed.

(** X8: in any row that starts with filled cells, the [i]-th of them
    lands at the even column [2 * i] of the row with its arrows; that
    column is 2.8 inch wide and the style loop draws a box around it. *)
Theorem journey_step_is_boxed (boxes rest : list Cell) (i : nat) (c : Cell) :
  Forall (fun b => truthy b = true) boxes ->
  nth_error boxes i = Some c ->
  exists cmds,
    journey_box_cmds (journey_full_row (boxes ++ rest)) = Ok cmds /\
    nth_error (journey_full_row (boxes ++ rest)) (2 * i) = Some c /\
    nth_error (journey_col_widths (journey_full_row (boxes ++ rest))) (2 * i) =
      Some (Lit 2.8 * inch)%num /\
    In (Z.of_nat (2 * i)) (box_columns cmds).
Proof.
  intros Hfilled Hbox.
  destruct (with_arrows_filled_prefix boxes Hfilled rest i _ Hbox)
    as [Hcell _].
  rewrite <- journey_full_row_arrows in Hcell.
  assert (Hlen : 2 * i < length (journey_full_row (boxes ++ rest))).
  { apply nth_error_Some. rewrite Hcell. discriminate. }
  eexists.
  split; [apply journey_box_cmds_value |].
  split; [exact Hcell |].
  split.
  - unfold journey_col_widths, range.
    rewrite col_widths_fold. cbn [app].
    rewrite nth_error_map, nth_error_seq.
    apply Nat.ltb_lt in Hlen. rewrite Hlen. cbn [option_map Nat.add].
    unfold journey_col_width. rewrite Nat.even_even. reflexivity.
  - rewrite box_columns_app, in_app_iff. right.
    apply box_columns_flat. exists (2 * i).
    split; [apply range3_even_In; split; [exact Hlen | apply Nat.even_even] |].
    split; [| reflexivity].
    rewrite (nth_error_nth _ _ empty_cell Hcell).
    rewrite Forall_forall in Hfilled. apply Hfilled.
    apply nth_error_In with (n := i). exact Hbox.
Qed.

(** ** Assembly only appends *)

Lemma for_each_appends {X : Type} (xs : list X)
  (body : X -> list Flowable -> Result (list Flowable)) :
  (forall x s, body x s = rbind (body x []) (fun items => Ok (s ++ items))) ->
  forall s,
    for_each xs body s =
    rbind (for_each xs body []) (fun items => Ok (s ++ items)).
Proof.
  intros Hbody. induction xs as [| x xs IH]; intros s; cbn [for_each].
  - cbn [rbind]. rewrite app_nil_r. reflexivity.
  - rewrite (Hbody x s).
    destruct (body x []) as [items |]; cbn [rbind]; [| reflexivity].
    rewrite (IH (s ++ items)), (IH items).
    destruct (for_each xs body []) as [more |]; cbn [rbind]; [| reflexivity].
    rewrite app_assoc. reflexivity.
Qed.

Lemma page1_appends (story : list Flowable) :
  page1 story = rbind (page1 []) (fun items => Ok (story ++ items)).
Proof.
  unfold page1.
  rewrite (for_each_appends _ _ (journey_row_appends journey_steps)
             ((story ++ _) ++ _)).
  rewrite (for_each_appends _ _ (journey_row_appends journey_steps)
             (([] ++ _) ++ _)).
  destruct (for_each (range 3) (journey_row journey_steps) [])
    as [items |]; cbn [rbind app]; [| reflexivity].
  repeat rewrite <- app_assoc. reflexivity.
Qed.

Lemma page2_appends (a b : list Flowable) : page2 (a ++ b) = a ++ page2 b.
Proof.
  unfold page2, phases_loop, enumerate.
  rewrite !phases_fold by reflexivity.
  repeat rewrite <- app_assoc. reflexivity.
Qed.

Lemma page3_appends (a b : list Flowable) : page3 (a ++ b) = a ++ page3 b.
Proof.
  unfold page3, layers_loop, enumerate.
  rewrite !layers_fold by reflexivity.
  repeat rewrite <- app_assoc. reflexivity.
Qed.

Lemma page4_appends (a b : list Flowable) : page4 (a ++ b) = a ++ page4 b.
Proof.
  unfold page4. repeat rewrite <- app_assoc. reflexivity.
Qed.

(** X9: the four pages only append: from any story the assembly completes
    and leaves that story in front of the same sixty flowables it builds
    from the empty one. *)
Theorem assemble_appends (story : list Flowable) :
  assemble story = Ok (story ++ the_story) /\ length the_story = 60.
Proof.
  split; [| vm_compute; reflexivity].
  pose proof assemble_the_story as Hempty.
  unfold assemble in *. rewrite page1_appends.
  destruct (page1 []) as [items | e]; cbn [rbind] in *; [| discriminate Hempty].
  injection Hempty as <-.
  rewrite page2_appends, page3_appends, page4_appends. reflexivity.
Qed.

(** ** Tables keep their shape *)

Lemma stacked_Forall (P : Flowable -> Prop) (sep panels : list Flowable) :
  Forall P sep -> Forall P panels -> Forall P (stacked sep panels).
Proof.
  intros Hsep. induction 1 as [| p rest Hp Hrest IH]; [constructor |].
  destruct rest as [| q rest]; [repeat constructor; exact Hp |].
  change (stacked sep (p :: q :: rest))
    with ([p] ++ sep ++ stacked sep (q :: rest)).
  repeat (apply Forall_app; split); [repeat constructor; exact Hp | | ];
    assumption.
Qed.

Lemma journey_row_keeps_shape (steps : list (string * string))
  (row_idx : nat) (story story' : list Flowable) :
  Forall (fun f => table_well_shaped f = true) story ->
  journey_row steps row_idx story = Ok story' ->
  Forall (fun f => table_well_shaped f = true) story'.
Proof.
  intros Hstory Hrow.
  destruct (journey_row_value steps row_idx story)
    as (row_data & cmds & _ & _ & _ & E).
  rewrite E in Hrow. injection Hrow as <-.
  apply Forall_app; split; [exact Hstory |].
  cbn [app]. constructor.
  - apply row_table_well_shaped.
  - destruct (row_idx <? 2); repeat constructor.
Qed.

Lemma phases_loop_keeps_shape
  (ps : list (Color * string * string * list string)) (story : list Flowable) :
  Forall (fun f => table_well_shaped f = true) story ->
  Forall (fun f => table_well_shaped f = true) (phases_loop ps story).
Proof.
  intros Hstory. unfold phases_loop, enumerate.
  rewrite phases_fold by reflexivity.
  apply Forall_app; split; [exact Hstory |].
  apply stacked_Forall; [repeat constructor |].
  apply Forall_forall. intros f Hf. apply in_map_iff in Hf.
  destruct Hf as [[[[color title] subtitle] items] [<- _]]. reflexivity.
Qed.

Lemma layers_loop_keeps_shape
  (ls : list (Color * string * string)) (story : list Flowable) :
  Forall (fun f => table_well_shaped f = true) story ->
  Forall (fun f => table_well_shaped f = true) (layers_loop ls story).
Proof.
  intros Hstory. unfold layers_loop, enumerate.
  rewrite layers_fold by reflexivity.
  apply Forall_app; split; [exact Hstory |].
  apply stacked_Forall; [repeat constructor |].
  apply Forall_forall. intros f Hf. apply in_map_iff in Hf.
  destruct Hf as [[[color title] body] [<- _]]. reflexivity.
Qed.

(** X10: every loop keeps the tables of the story well shaped, whatever
    list it runs over: each table it appends has as many column widths as
    its row has cells and as many row heights as rows; the fixed tables of
    page 4 and the whole assembled story are well shaped too. *)
Theorem tables_stay_well_shaped (steps : list (string * string))
  (ps : list (Color * string * string * list string))
  (ls : list (Color * string * string)) (story : list Flowable) :
  Forall (fun f => table_well_shaped f = true) story ->
  (forall row_idx story',
      journey_row steps row_idx story = Ok story' ->
      Forall (fun f => table_well_shaped f = true) story') /\
  Forall (fun f => table_well_shaped f = true) (phases_loop ps story) /\
  Forall (fun f => table_well_shaped f = true) (layers_loop ls story) /\
  Forall (fun f => table_well_shaped f = true) (page4 story) /\
  Forall (fun f => table_well_shaped f = true) the_story.
Proof.
  intros Hstory.
  split; [intros row_idx story'; apply journey_row_keeps_shape; exact Hstory |].
  split; [apply phases_loop_keeps_shape; exact Hstory |].
  split; [apply layers_loop_keeps_shape; exact Hstory |].
  split.
  - rewrite <- (app_nil_r story), page4_appends.
    apply Forall_app; split; [exact Hstory |].
    apply Forall_forall. intros f Hf.
    assert (Hall : forallb table_well_shaped (page4 []) = true)
      by (vm_compute; reflexivity).
    rewrite forallb_forall in Hall. apply Hall. exact Hf.
  - apply Forall_forall. intros f Hf.
    assert (Hall : forallb table_well_shaped the_story = true)
      by (vm_compute; reflexivity).
    rewrite forallb_forall in Hall. apply Hall. exact Hf.
Qed.

(** ** The page background *)

(** X11: on any canvas, [page_bg] paints the full-page rectangle in the
    dark background colour and then the glow circle, and leaves the fill
    colour and the stack of saved states as it found them; the rectangle
    has the page size the document is created with. *)
Theorem page_bg_restores_canvas (c : Canvas) (output_path : string) :
  call_on page_bg c =
    mkCanvas (fill_color c) (saved_states c)
      (painted c ++
       [ (rect (Lit 0) (Lit 0) PAGE_W PAGE_H 1 0, DARK_BG);
         (circle (PAGE_W - Lit 100) (PAGE_H - Lit 80) (Lit 200) 1 0,
          HexColor "#0d3d3820") ]) /\
  pagesize (SimpleDocTemplate output_path) = (PAGE_W, PAGE_H).
Proof.
  split; [| reflexivity].
  destruct c as [fill saved shapes].
  unfold call_on, page_bg. cbn [fold_left canvas_do fill_color saved_states painted].
  rewrite <- app_assoc. reflexivity.
Qed.

(** ** A run that completes *)

(** With the other calls taken to return, the run completes exactly when
    [doc.build] and then [os.path.getsize], asked in the world the build
    left, both return. *)
Lemma run_completes_when (env : Env) (ext : Ext) :
  snd (run env ext) = Ok tt <->
  exists ext1 story1 size,
    build (SimpleDocTemplate (output_path env ext)) the_story page_bg page_bg ext
      = (ext1, story1, Ok tt) /\
    getsize ext1 (output_path env ext) = Ok size /\
    fst (run env ext) =
      mkWorld story1 ext1
        [ ("Generated: " ++ output_path env ext)%string;
          ("Size: " ++ format_thousands size ++ " bytes")%string ]
        [ CBuild (SimpleDocTemplate (output_path env ext)) the_story
                 page_bg page_bg;
          CGetsize (output_path env ext) ].
Proof.
  rewrite run_steps.
  destruct (build _ the_story page_bg page_bg ext)
    as [[ext1 story1] [[] | e]] eqn:Hbuild.
  - destruct (getsize ext1 _) as [size | e] eqn:Hsize; cbn [fst snd]; split.
    + intros _. exists ext1, story1, size. repeat split. exact Hsize.
    + reflexivity.
    + intros Hok. discriminate Hok.
    + intros (ext2 & story2 & size & Hb & Hs & _).
      injection Hb as <- <-. rewrite Hsize in Hs. discriminate Hs.
  - cbn [fst snd]. split.
    + intros Hok. discriminate Hok.
    + intros (ext2 & story2 & size & Hb & _). discriminate Hb.
Qed.

(** ** The size, with its commas *)

Lemma group3_keeps_digits (p : ascii -> bool) :
  p ","%char = false ->
  forall (n : nat) (l : list ascii),
    length l <= n -> filter p (group3 l) = filter p l.
Proof.
  intros Hcomma. induction n as [| n IH]; intros l Hlen.
  - destruct l; [reflexivity | cbn [length] in Hlen; lia].
  - destruct l as [| a [| b [| c [| d rest]]]]; try reflexivity.
    change (group3 (a :: b :: c :: d :: rest))
      with ([a; b; c] ++ [","%char] ++ group3 (d :: rest)).
    change (a :: b :: c :: d :: rest) with ([a; b; c] ++ d :: rest).
    rewrite !filter_app. cbn [filter]. rewrite Hcomma. cbn [app].
    rewrite IH by (cbn [length] in *; lia). reflexivity.
Qed.

Lemma digits_have_no_comma (d : Decimal.uint) :
  filter (fun c => negb (Ascii.eqb c ","%char))
         (list_ascii_of_string (NilEmpty.string_of_uint d)) =
  list_ascii_of_string (NilEmpty.string_of_uint d).
Proof.
  induction d; cbn [NilEmpty.string_of_uint list_ascii_of_string filter];
    [reflexivity | ..]; cbn [Ascii.eqb Bool.eqb negb]; rewrite IHd; reflexivity.
Qed.

(** X13: the size printed with thousands separators reads back as the
    size: for [n >= 0], removing the commas from [f'{n:,}'] and parsing
    the decimal digits gives [n]. *)
Theorem format_thousands_reads_back (n : Z) :
  (0 <= n)%Z ->
  parse_decimal (strip_commas (format_thousands n)) = Some n.
Proof.
  intros Hn. unfold format_thousands, strip_commas, parse_decimal.
  destruct (Z.ltb_spec n 0) as [Hneg | _]; [lia |].
  rewrite list_ascii_of_string_of_list_ascii, filter_rev.
  rewrite (group3_keeps_digits _ eq_refl _ _ (le_n _)).
  rewrite <- filter_rev, rev_involutive.
  assert (Hnonnil : N.to_uint (Z.abs_N n) <> Decimal.Nil).
  { destruct (Z.abs_N n) as [| p]; [discriminate |].
    apply DecimalPos.Unsigned.to_uint_nonnil. }
  assert (Hstr : NilZero.string_of_uint (N.to_uint (Z.abs_N n)) =
                 NilEmpty.string_of_uint (N.to_uint (Z.abs_N n))).
  { destruct (N.to_uint (Z.abs_N n)); [congruence | reflexivity ..]. }
  rewrite Hstr, digits_have_no_comma, string_of_list_ascii_of_string, <- Hstr.
  rewrite (NilZero.usu _ Hnonnil). cbn [option_map].
  rewrite DecimalN.Unsigned.of_to, N2Z.inj_abs_N, Z.abs_eq by exact Hn.
  reflexivity.
Qed.

(** ** Line breaks *)

Lemma has_char_append (c : ascii) (a b : string) :
  has_char c (a ++ b) = has_char c a || has_char c b.
Proof.
  induction a as [| c' a IH]; [reflexivity |].
  cbn [append has_char]. rewrite IH, orb_assoc. reflexivity.
Qed.

Lemma str_replace_removes (old : ascii) (new s : string) :
  has_char old new = false ->
  has_char old (str_replace old new s) = false.
Proof.
  intros Hnew. induction s as [| c s IH]; [reflexivity |].
  cbn [str_replace].
  destruct (Ascii.eqb c old) eqn:E.
  - rewrite has_char_append, Hnew, IH. reflexivity.
  - cbn [has_char]. rewrite E, IH. reflexivity.
Qed.

Lemma str_replace_absent (old : ascii) (new s : string) :
  has_char old s = false -> str_replace old new s = s.
Proof.
  induction s as [| c s IH]; [reflexivity |].
  cbn [has_char str_replace]. intros H.
  apply orb_false_iff in H. destruct H as [Hc Hs].
  rewrite Hc, IH by exact Hs. reflexivity.
Qed.

(** X14: whatever the step or the layer, the body paragraph of its box
    holds no line feed: each one in the body has become a [<br/>]; a body
    without line feed is shown as it is. *)
Theorem bodies_have_no_line_feed (step : string * string) (color : Color)
  (title body : string) :
  (exists text,
      cell_texts (journey_box step) = [fst step; text] /\
      has_char "010"%char text = false /\
      (has_char "010"%char (snd step) = false -> text = snd step)) /\
  (exists heading text,
      texts (layer_table color title body) = [heading; text] /\
      has_char "010"%char text = false /\
      (has_char "010"%char body = false -> text = body)).
Proof.
  split.
  - eexists. split; [reflexivity |].
    split; [apply str_replace_removes; reflexivity | apply str_replace_absent].
  - do 2 eexists. split; [reflexivity |].
    split; [apply str_replace_removes; reflexivity | apply str_replace_absent].
Qed.

(** ** Errors propagate *)

Lemma propagates_done {A : Type} (a : A) : propagates (done a).
Proof.
  intros r Hq. exists []. cbn. rewrite app_nil_r. split; [reflexivity | constructor].
Qed.

Lemma propagates_lift {A : Type} (a : A) : propagates (lift (Ok a)).
Proof. apply (propagates_done a). Qed.

Lemma propagates_and_then {A B : Type} (m : E A) (k : A -> E B) :
  propagates m -> (forall a, propagates (k a)) -> propagates (and_then m k).
Proof.
  intros Hm Hk r Hq. unfold and_then.
  destruct (Hm r Hq) as [add1 [E1 H1]].
  destruct (m r) as [r1 [a | e]]; cbn [fst snd] in *.
  - assert (Hq1 : quiet (r_trace r1))
      by (rewrite E1; apply Forall_app; split; assumption).
    destruct (Hk a r1 Hq1) as [add2 [E2 H2]].
    exists (add1 ++ add2). split; [rewrite E2, E1, app_assoc; reflexivity |].
    destruct (snd (k a r1)) as [b | e].
    + apply Forall_app; split; assumption.
    + destruct H2 as (c & before & -> & Hbefore).
      exists c, (add1 ++ before). split; [rewrite app_assoc; reflexivity |].
      apply Forall_app; split; assumption.
  - exists add1. split; assumption.
Qed.

Lemma propagates_call (c : Outcall) : propagates (call c).
Proof.
  intros r Hq. unfold call.
  destruct (fails c (r_ext r)) as [e |]; cbn [fst snd r_trace].
  - exists [(c, Some e)]. split; [reflexivity |].
    exists c, []. split; [reflexivity | constructor].
  - exists [(c, None)]. split; [reflexivity |].
    repeat constructor.
Qed.

Lemma propagates_calls (cs : list Outcall) : propagates (calls cs).
Proof.
  induction cs as [| c cs IH]; cbn [calls].
  - apply propagates_done.
  - apply propagates_and_then; [apply propagates_call | intros _; exact IH].
Qed.

Lemma propagates_fresh_story : propagates fresh_story.
Proof.
  intros r Hq. exists []. cbn. rewrite app_nil_r. split; [reflexivity | constructor].
Qed.

Lemma propagates_append_story (f : Flowable) : propagates (append_story f).
Proof.
  intros r Hq. exists []. cbn. rewrite app_nil_r. split; [reflexivity | constructor].
Qed.

Lemma propagates_for_loop {X S : Type} (xs : list X) (body : X -> S -> E S) :
  (forall x s, propagates (body x s)) ->
  forall s, propagates (for_loop xs body s).
Proof.
  intros Hbody. induction xs as [| x xs IH]; intros s; cbn [for_loop].
  - apply propagates_done.
  - apply propagates_and_then; [apply Hbody | exact IH].
Qed.

Lemma propagates_build_doc (doc : DocTemplate) (first later : Callback) :
  propagates (build_doc doc first later).
Proof.
  intros r Hq. unfold build_doc.
  destruct (build doc (r_story r) first later (r_ext r))
    as [[ext1 story1] [u | e]]; cbn [fst snd r_trace].
  - eexists. split; [reflexivity |]. repeat constructor.
  - eexists. split; [reflexivity |].
    eexists _, []. split; [reflexivity | constructor].
Qed.

Lemma propagates_get_size (path : string) : propagates (get_size path).
Proof.
  intros r Hq. unfold get_size. cbn [fst snd r_trace].
  destruct (getsize (r_ext r) path) as [size | e].
  - eexists. split; [reflexivity |]. repeat constructor.
  - eexists. split; [reflexivity |].
    eexists _, []. split; [reflexivity | constructor].
Qed.

Lemma propagates_print_line (line : string) : propagates (print_line line).
Proof.
  unfold print_line.
  apply propagates_and_then; [apply propagates_call |].
  intros _ r Hq. exists []. cbn. rewrite app_nil_r.
  split; [reflexivity | constructor].
Qed.

Ltac propagation :=
  repeat match goal with
    | |- propagates (done _) => apply propagates_done
    | |- propagates (lift (Ok _)) => apply propagates_lift
    | |- propagates (call _) => apply propagates_call
    | |- propagates (calls _) => apply propagates_calls
    | |- propagates fresh_story => apply propagates_fresh_story
    | |- propagates (append_story _) => apply propagates_append_story
    | |- propagates (build_doc _ _ _) => apply propagates_build_doc
    | |- propagates (get_size _) => apply propagates_get_size
    | |- propagates (print_line _) => apply propagates_print_line
    | |- propagates (and_then _ _) => apply propagates_and_then; [| intros ?]
    | |- propagates (for_loop _ _ _) => apply propagates_for_loop; intros ? ?
    | |- propagates (if ?b then _ else _) => destruct b
    | |- propagates (let '(_, _) := ?p in _) => destruct p
    end.

Lemma propagates_paragraph (text : string) (style : ParagraphStyle) :
  propagates (paragraph text style).
Proof. unfold paragraph. propagation. Qed.

Lemma propagates_spacer (width height : Z) : propagates (spacer width height).
Proof. unfold spacer. propagation. Qed.

Lemma propagates_table (data : list (list Cell)) (widths : list Num)
  (heights : option (list (option Num))) :
  propagates (table data widths heights).
Proof. unfold table. propagation. Qed.

Lemma propagates_set_style (t : Flowable) (cmds : list StyleCmd) :
  propagates (set_style t cmds).
Proof. unfold set_style. propagation. Qed.

Lemma propagates_new_style (style : ParagraphStyle) :
  propagates (new_style style).
Proof. unfold new_style. propagation. Qed.

Lemma propagates_hex_color (hex : string) : propagates (hex_color hex).
Proof. unfold hex_color. propagation. Qed.

Lemma propagates_hexval_of (c : Color) : propagates (hexval_of c).
Proof. unfold hexval_of. propagation. Qed.

Ltac propagation_lib :=
  repeat first
    [ match goal with
      | |- propagates (paragraph _ _) => apply propagates_paragraph
      | |- propagates (spacer _ _) => apply propagates_spacer
      | |- propagates (table _ _ _) => apply propagates_table
      | |- propagates (set_style _ _) => apply propagates_set_style
      | |- propagates (new_style _) => apply propagates_new_style
      | |- propagates (hex_color _) => apply propagates_hex_color
      | |- propagates (hexval_of _) => apply propagates_hexval_of
      end
    | progress propagation ].

Lemma propagates_arrow_table (text : string) (style : ParagraphStyle)
  (width height : Num) :
  propagates (arrow_table text style width height).
Proof. unfold arrow_table. propagation_lib. Qed.

Lemma propagates_titled_cell (title body : string) :
  propagates (titled_cell title body).
Proof. unfold titled_cell. propagation_lib. Qed.

Lemma propagates_abspath_of (p : string) : propagates (abspath_of p).
Proof.
  unfold abspath_of.
  apply propagates_and_then; [apply propagates_call |].
  intros _ r Hq. exists []. cbn. rewrite app_nil_r.
  split; [reflexivity | constructor].
Qed.

Lemma propagates_setup (env : Env) : propagates (setup env).
Proof.
  unfold setup.
  repeat first [apply propagates_abspath_of | progress propagation].
Qed.

(** The guard of line 139 keeps the interpreter from raising [IndexError]. *)
Lemma propagates_journey_cell_e (steps : list (string * string))
  (row_idx col_idx : nat) (row_data : list Cell) :
  propagates (journey_cell_e steps row_idx col_idx row_data).
Proof.
  unfold journey_cell_e.
  destruct (Nat.ltb_spec (row_idx * 3 + col_idx) (length steps)) as [Hin | Hout].
  - destruct (index_in_bounds steps _ Hin) as [step ->]. propagation_lib.
  - propagation.
Qed.

Lemma propagates_journey_row_e (steps : list (string * string))
  (row_idx : nat) (u : unit) :
  propagates (journey_row_e steps row_idx u).
Proof.
  unfold journey_row_e.
  apply propagates_and_then;
    [apply propagates_for_loop; intros; apply propagates_journey_cell_e |].
  intros row_data.
  apply propagates_and_then.
  { apply propagates_for_loop. intros [i cell] full_row.
    unfold journey_arrow_e. propagation_lib. }
  intros full_row. rewrite journey_box_cmds_value.
  propagation_lib; apply propagates_arrow_table.
Qed.

Lemma propagates_page1_e (steps : list (string * string)) :
  propagates (page1_e steps).
Proof.
  unfold page1_e. propagation_lib; apply propagates_journey_row_e.
Qed.

Lemma propagates_page2_e : propagates page2_e.
Proof.
  unfold page2_e. propagation_lib.
  unfold phase_step_e. propagation_lib; apply propagates_arrow_table.
Qed.

Lemma propagates_page3_e : propagates page3_e.
Proof.
  unfold page3_e. propagation_lib.
  unfold layer_step_e. propagation_lib; apply propagates_arrow_table.
Qed.

Lemma propagates_page4_e : propagates page4_e.
Proof.
  unfold page4_e, append_spacer.
  repeat first
    [ apply propagates_titled_cell
    | apply propagates_arrow_table
    | progress propagation_lib
    | progress (unfold stream_cell_e) ].
Qed.

Lemma propagates_script_e (env : Env) : propagates (script_e env).
Proof.
  unfold script_e.
  apply propagates_and_then; [apply propagates_setup |].
  intros [output_path doc].
  repeat first
    [ apply propagates_page1_e
    | apply propagates_page2_e
    | apply propagates_page3_e
    | apply propagates_page4_e
    | progress propagation ].
Qed.

Lemma and_then_returns {A B : Type} (m : E A) (k : A -> E B) (r : Run) (b : B) :
  snd (and_then m k r) = Ok b ->
  exists a r1, m r = (r1, Ok a) /\ snd (k a r1) = Ok b.
Proof.
  unfold and_then. destruct (m r) as [r1 [a | e]]; intros H.
  - exists a, r1. split; [reflexivity | exact H].
  - discriminate H.
Qed.

Lemma journey_cell_e_value (steps : list (string * string))
  (row_idx col_idx : nat) (row_data row_data' : list Cell) (r : Run) :
  snd (journey_cell_e steps row_idx col_idx row_data r) = Ok row_data' ->
  row_data' =
    row_data ++
    [ match nth_error steps (row_idx * 3 + col_idx) with
      | Some step => journey_box step
      | None => empty_cell
      end ].
Proof.
  unfold journey_cell_e, index.
  destruct (Nat.ltb_spec (row_idx * 3 + col_idx) (length steps)) as [Hin | Hout].
  - destruct (nth_error steps (row_idx * 3 + col_idx)) as [step |] eqn:E;
      [| apply nth_error_None in E; lia].
    unfold and_then, lift, paragraph, spacer, and_then, call, done.
    cbn [r_ext r_story r_stdout r_trace].
    repeat match goal with
      | |- context [fails ?c ?x] =>
          destruct (fails c x); cbn [r_ext r_story r_stdout r_trace fst snd]
      end;
      intros H; try discriminate H; injection H as <-; reflexivity.
  - destruct (nth_error steps (row_idx * 3 + col_idx)) as [step |] eqn:E.
    + assert (Hsome : nth_error steps (row_idx * 3 + col_idx) <> None)
        by congruence.
      apply nth_error_Some in Hsome. lia.
    + cbn. intros H. injection H as <-. reflexivity.
Qed.

(** X1: for any list of steps and any row, the inner loop raises no error
    of its own, no [IndexError] in particular: either a call it makes to
    reportlab raises, and the loop ends with that exception at that call,
    or it yields three cells, the boxes of the steps [3r .. 3r+2] that
    exist, in order, followed by empty cells. *)
Theorem journey_row_data_slice (steps : list (string * string))
  (row_idx : nat) (r : Run) :
  quiet (r_trace r) ->
  exists added,
    r_trace (fst (for_loop (range 3) (journey_cell_e steps row_idx) [] r)) =
      r_trace r ++ added /\
    match snd (for_loop (range 3) (journey_cell_e steps row_idx) [] r) with
    | Ok row_data =>
        quiet added /\
        row_data =
          map journey_box (row_steps steps row_idx) ++
          repeat empty_cell (3 - length (row_steps steps row_idx)) /\
        length row_data = 3
    | Raise e =>
        exists c before, added = before ++ [(c, Some e)] /\ quiet before
    end.
Proof.
  intros Hq.
  destruct (propagates_for_loop (range 3) (journey_cell_e steps row_idx)
              (propagates_journey_cell_e steps row_idx) [] r Hq)
    as [added [Htrace Hend]].
  exists added. split; [exact Htrace |].
  destruct (snd (for_loop (range 3) (journey_cell_e steps row_idx) [] r))
    as [row_data | e] eqn:E; [| exact Hend].
  split; [exact Hend |].
  unfold range in E. cbn [seq for_loop] in E.
  apply and_then_returns in E. destruct E as (rd1 & r1 & E1 & E).
  apply and_then_returns in E. destruct E as (rd2 & r2 & E2 & E).
  apply and_then_returns in E. destruct E as (rd3 & r3 & E3 & E).
  cbn in E. injection E as <-.
  apply (f_equal snd) in E1, E2, E3. cbn [snd] in E1, E2, E3.
  apply journey_cell_e_value in E1, E2, E3. subst rd1 rd2 rd3.
  pose proof (journey_row_data_cells steps row_idx) as Hpure.
  unfold journey_row_data, range in Hpure. cbn [seq for_each] in Hpure.
  rewrite !journey_cell_appends in Hpure. cbn [rbind for_each] in Hpure.
  rewrite !journey_cell_appends in Hpure. cbn [rbind for_each] in Hpure.
  rewrite !journey_cell_appends in Hpure. cbn [rbind] in Hpure.
  cbn [app] in Hpure. injection Hpure as Hpure.
  cbn [app]. rewrite Hpure.
  split; [reflexivity |].
  rewrite length_app, length_map, repeat_length.
  assert (Hle : length (row_steps steps row_idx) <= 3)
    by (unfold row_steps; apply firstn_le_length).
  destruct (length (row_steps steps row_idx)) as [| [| [| n]]]; lia.
Qed.

Lemma first_raise_is_last (before after b0 : list (Outcall * option Exn))
  (c c0 : Outcall) (e e0 : Exn) :
  quiet b0 ->
  before ++ (c, Some e) :: after = b0 ++ [(c0, Some e0)] ->
  after = [] /\ before = b0.
Proof.
  revert b0. induction before as [| p before IH]; intros b0 Hq Heq.
  - destruct b0 as [| z b0]; cbn in Heq.
    + injection Heq as _ _ ->. split; reflexivity.
    + injection Heq as <- _. inversion Hq as [| ? ? Hz _]. discriminate Hz.
  - destruct b0 as [| z b0]; cbn in Heq.
    + injection Heq as _ Heq. destruct before; discriminate Heq.
    + injection Heq as <- Heq. inversion Hq as [| ? ? _ Hq'].
      destruct (IH b0 Hq' Heq) as [-> ->]. split; reflexivity.
Qed.

(** C4: whatever call raises (a reportlab constructor rejecting its
    arguments, [os.path], [doc.build], [print], [os.path.getsize]), the
    run ends with that very exception and makes no further call: the run
    raises [e] exactly when a call of its trace raised [e], it completes
    exactly when every call returned, and a call that raised is the last
    one of the trace. *)
Theorem errors_propagate (env : Env) (ext : Ext) :
  (forall e,
      snd (run_e env ext) = Raise e <->
      raised_in e (r_trace (fst (run_e env ext)))) /\
  (snd (run_e env ext) = Ok tt <-> quiet (r_trace (fst (run_e env ext)))) /\
  (forall before c e after,
      r_trace (fst (run_e env ext)) = before ++ (c, Some e) :: after ->
      after = [] /\ quiet before).
Proof.
  unfold run_e.
  destruct (propagates_script_e env (mkRun [] ext [] []) (Forall_nil _))
    as [added [Htrace Hend]].
  cbn [r_trace app] in Htrace. rewrite Htrace.
  destruct (snd (script_e env (mkRun [] ext [] []))) as [[] | e0].
  - split; [| split].
    + intros e. split; [intros H; discriminate H |].
      intros [c Hin]. unfold quiet in Hend. rewrite Forall_forall in Hend.
      specialize (Hend _ Hin). discriminate Hend.
    + split; [intros _; exact Hend | reflexivity].
    + intros before c e after ->.
      apply Forall_app in Hend. destruct Hend as [_ Hend].
      inversion Hend as [| ? ? Hc _]. discriminate Hc.
  - destruct Hend as (c0 & before0 & -> & Hq0).
    split; [| split].
    + intros e. split.
      * intros H. injection H as <-. exists c0.
        apply in_or_app. right. left. reflexivity.
      * intros [c Hin]. apply in_app_or in Hin. destruct Hin as [Hin | Hin].
        -- unfold quiet in Hq0. rewrite Forall_forall in Hq0.
           specialize (Hq0 _ Hin). discriminate Hq0.
        -- destruct Hin as [Heq | []]. injection Heq as _ <-. reflexivity.
    + split; [intros H; discriminate H |].
      intros Hall. apply Forall_app in Hall. destruct Hall as [_ Hall].
      inversion Hall as [| ? ? Hc _]. discriminate Hc.
    + intros before c e after Heq. symmetry in Heq.
      destruct (first_raise_is_last _ _ _ _ _ _ _ Hq0 Heq) as [-> ->].
      split; [reflexivity | exact Hq0].
Qed.

End Script.

(** ** Two runs *)

(** C6: two runs build the same story, whatever the script file, the
    arguments, the environment, the state of the world and the behaviour
    of [os.path], [doc.build] and [os.path.getsize] in each. *)
Theorem assembly_is_deterministic
  (hexval : Color -> string)
  (Ext1 Ext2 : Type)
  (abspath1 : Ext1 -> string -> string) (abspath2 : Ext2 -> string -> string)
  (dirname1 dirname2 : string -> string)
  (join1 join2 : string -> string -> string)
  (build1 : DocTemplate -> list Flowable -> Callback -> Callback -> Ext1 ->
            Ext1 * list Flowable * Result unit)
  (build2 : DocTemplate -> list Flowable -> Callback -> Callback -> Ext2 ->
            Ext2 * list Flowable * Result unit)
  (getsize1 : Ext1 -> string -> Result Z) (getsize2 : Ext2 -> string -> Result Z)
  (env1 env2 : Env) (ext1 : Ext1) (ext2 : Ext2) :
  built_stories
    (w_calls Ext1
       (fst (run Ext1 hexval abspath1 dirname1 join1 build1 getsize1 env1 ext1))) =
  built_stories
    (w_calls Ext2
       (fst (run Ext2 hexval abspath2 dirname2 join2 build2 getsize2 env2 ext2))) /\
  assemble hexval [] = Ok (the_story hexval).
Proof.
  rewrite !run_builds_the_story.
  split; [reflexivity | apply assemble_the_story].
Qed.

(** ** The two readings of the script agree

    When no call raises but [doc.build] and [os.path.getsize], the script
    with every call able to raise does what [script] does: same result,
    same story, same world, same lines printed. *)
Lemma faultless_run_agrees (Ext : Type) (hexval : Color -> string)
  (abspath : Ext -> string -> string) (dirname : string -> string)
  (join : string -> string -> string)
  (build : DocTemplate -> list Flowable -> Callback -> Callback -> Ext ->
           Ext * list Flowable * Result unit)
  (getsize : Ext -> string -> Result Z) (env : Env) (ext : Ext) :
  let r := run_e Ext hexval abspath dirname join build getsize
                 (fun _ _ => None) env ext in
  let w := run Ext hexval abspath dirname join build getsize env ext in
  snd r = snd w /\
  r_story Ext (fst r) = w_story Ext (fst w) /\
  r_ext Ext (fst r) = w_ext Ext (fst w) /\
  r_stdout Ext (fst r) = w_stdout Ext (fst w).
Proof.
  cbv zeta. repeat split; vm_compute;
    destruct (build _ _ _ _ ext) as [[ext1 story1] [u | e]];
    try reflexivity;
    destruct (getsize ext1 _) as [size | e]; reflexivity.
Qed.

(** X12: on a platform where no call raises but [doc.build] and
    [os.path.getsize], the run completes exactly when these two return,
    [os.path.getsize] being asked in the world the build left; it has then
    printed the output path and that size, in this order. *)
Theorem run_completes_iff (Ext : Type) (hexval : Color -> string)
  (abspath : Ext -> string -> string) (dirname : string -> string)
  (join : string -> string -> string)
  (build : DocTemplate -> list Flowable -> Callback -> Callback -> Ext ->
           Ext * list Flowable * Result unit)
  (getsize : Ext -> string -> Result Z) (env : Env) (ext : Ext) :
  let out := output_path Ext abspath dirname join env ext in
  let r := run_e Ext hexval abspath dirname join build getsize
                 (fun _ _ => None) env ext in
  snd r = Ok tt <->
  exists ext1 story1 size,
    build (SimpleDocTemplate out) (the_story hexval) page_bg page_bg ext
      = (ext1, story1, Ok tt) /\
    getsize ext1 out = Ok size /\
    r_story Ext (fst r) = story1 /\
    r_ext Ext (fst r) = ext1 /\
    r_stdout Ext (fst r) =
      [ ("Generated: " ++ out)%string;
        ("Size: " ++ format_thousands size ++ " bytes")%string ].
Proof.
  cbv zeta.
  destruct (faultless_run_agrees Ext hexval abspath dirname join build getsize
              env ext) as (Hres & Hstory & Hext & Hout).
  cbv zeta in Hres, Hstory, Hext, Hout.
  rewrite Hres, Hstory, Hext, Hout.
  rewrite run_completes_when. split.
  - intros (ext1 & story1 & size & Hb & Hs & Hw).
    exists ext1, story1, size. rewrite Hw. repeat split; assumption.
  - intros (ext1 & story1 & size & Hb & Hs & _).
    exists ext1, story1, size. split; [exact Hb |]. split; [exact Hs |].
    rewrite run_steps, Hb, Hs. reflexivity.
Qed.

(** * The properties on the sample platform *)

Lemma journey_grid_well_formed_witness :
  length journey_steps = 9 /\ 1 < 3 /\
  journey_full_row
    [ journey_box ("4. Play Game", ("Launch WASM sandbox" ++ nl ++ "Real-time or turn-based")%string);
      journey_box ("5. Earn MOLT", ("Win tournaments, sell items," ++ nl ++ "create popular games")%string);
      journey_box ("6. Create Game", ("Use BaseGame template" ++ nl ++ "5 methods to implement")%string) ] =
    [ journey_box ("4. Play Game", ("Launch WASM sandbox" ++ nl ++ "Real-time or turn-based")%string);
      CellFlow right_arrow;
      journey_box ("5. Earn MOLT", ("Win tournaments, sell items," ++ nl ++ "create popular games")%string);
      CellFlow right_arrow;
      journey_box ("6. Create Game", ("Use BaseGame template" ++ nl ++ "5 methods to implement")%string) ].
Proof.
  split; [reflexivity |]. split; [lia |].
  destruct (journey_grid_well_formed journey_steps 1 eq_refl ltac:(lia))
    as [_ [[a [b [c [Ha [Hb [Hc [_ [Hfull _]]]]]]]] _]].
  vm_compute in Ha, Hb, Hc.
  injection Ha as <-. injection Hb as <-. injection Hc as <-.
  exact Hfull.
Defined.

Local Abbreviation sample_run :=
  (run Sample.Disk Sample.hexval Sample.abspath Sample.dirname Sample.join
       Sample.build Sample.getsize).

Local Abbreviation plain_env := (mkEnv "docs/generate_flowcharts_pdf.py" [] []).

Local Abbreviation busy_env :=
  (mkEnv "docs/generate_flowcharts_pdf.py"
         ["--output"; "elsewhere.pdf"] [("OUTPUT", "/tmp/elsewhere.pdf")]).

(** On an empty disk the run completes and prints its two lines. *)
Example sample_run_completes :
  snd (sample_run plain_env Sample.empty_disk) = Ok tt /\
  w_stdout _ (fst (sample_run plain_env Sample.empty_disk)) =
    [ "Generated: /srv/moltblox/docs/docs/moltblox-flowcharts.pdf";
      "Size: 4,096 bytes" ] /\
  Sample.files (w_ext _ (fst (sample_run plain_env Sample.empty_disk))) =
    [("/srv/moltblox/docs/docs/moltblox-flowcharts.pdf", 4096%Z)].
Proof.
  repeat split; vm_compute; reflexivity.
Qed.

Lemma output_path_fixed_witness :
  script_file busy_env = script_file plain_env /\
  map call_path
      (builds (w_calls _ (fst (sample_run plain_env Sample.empty_disk)))) =
    ["/srv/moltblox/docs/docs/moltblox-flowcharts.pdf"] /\
  sample_run busy_env Sample.empty_disk = sample_run plain_env Sample.empty_disk.
Proof.
  split; [reflexivity |].
  destruct
    (output_path_fixed Sample.Disk Sample.hexval Sample.abspath Sample.dirname
       Sample.join Sample.build Sample.getsize plain_env busy_env
       Sample.empty_disk eq_refl)
    as (_ & Hone & _ & Hsame).
  split; [rewrite Hone; vm_compute; reflexivity | exact Hsame].
Defined.

Example build_error_on_full_disk :
  snd (sample_run plain_env Sample.full_disk) =
    Raise (OSError "No space left on device") /\
  w_stdout _ (fst (sample_run plain_env Sample.full_disk)) = [].
Proof.
  destruct
    (build_and_getsize_errors Sample.Disk Sample.hexval Sample.abspath Sample.dirname
       Sample.join Sample.build Sample.getsize plain_env Sample.full_disk
       (OSError "No space left on device") []
       ltac:(eapply build_raises; reflexivity))
    as (Hraised & Hquiet & _).
  split; assumption.
Defined.

(** ** Witnesses of the further properties *)

Lemma journey_full_row_alternates_witness :
  nth_error (journey_full_row [CellStr "a"; CellStr "b"]) (2 * 0) =
    Some (CellStr "a") /\
  nth_error (journey_full_row [CellStr "a"; CellStr "b"]) (2 * 0 + 1) =
    Some (CellFlow right_arrow) /\
  length (journey_full_row [CellStr "a"; CellStr "b"]) = 3.
Proof.
  destruct
    (journey_full_row_alternates [CellStr "a"; CellStr "b"] 0 (CellStr "a")
       ltac:(repeat constructor) eq_refl)
    as (Hcell & Harrow & Hlen).
  split; [exact Hcell |]. split; [apply Harrow; cbn; lia | exact Hlen].
Defined.

Lemma journey_step_is_boxed_witness :
  exists cmds,
    journey_box_cmds
      (journey_full_row (map journey_box (row_steps journey_steps 2) ++ [])) =
      Ok cmds /\
    nth_error
      (journey_full_row (map journey_box (row_steps journey_steps 2) ++ []))
      (2 * 1) =
      Some (journey_box
              ("8. Community",
               ("Post in Submolts" ++ nl ++ "Rate games, give feedback")%string)) /\
    nth_error
      (journey_col_widths
         (journey_full_row (map journey_box (row_steps journey_steps 2) ++ [])))
      (2 * 1) = Some (Lit 2.8 * inch)%num /\
    In (Z.of_nat (2 * 1)) (box_columns cmds).
Proof.
  apply (journey_step_is_boxed (map journey_box (row_steps journey_steps 2)) []
           1 _);
    [repeat constructor | reflexivity].
Defined.

Lemma tables_stay_well_shaped_witness :
  Forall (fun f => table_well_shaped f = true)
         (phases_loop Sample.hexval phases []) /\
  Forall (fun f => table_well_shaped f = true) (page4 []).
Proof.
  destruct
    (tables_stay_well_shaped Sample.hexval journey_steps phases layers []
       (Forall_nil _))
    as (_ & Hphases & _ & Hpage4 & _).
  split; assumption.
Defined.

Lemma format_thousands_reads_back_witness :
  (0 <= 1234567)%Z /\
  format_thousands 1234567 = "1,234,567" /\
  parse_decimal (strip_commas (format_thousands 1234567)) = Some 1234567%Z.
Proof.
  split; [lia |]. split; [vm_compute; reflexivity |].
  apply format_thousands_reads_back. lia.
Defined.

(** A platform whose standard output is closed: every [print] raises. *)
Definition stdout_closed (c : Outcall) (d : Sample.Disk) : option Exn :=
  match c with
  | OPrint _ => Some (OSError "Broken pipe")
  | _ => None
  end.

Lemma errors_propagate_witness :
  snd (run_e Sample.Disk Sample.hexval Sample.abspath Sample.dirname
         Sample.join Sample.build Sample.getsize stdout_closed
         plain_env Sample.empty_disk) = Raise (OSError "Broken pipe") /\
  raised_in (OSError "Broken pipe")
    (r_trace _
       (fst (run_e Sample.Disk Sample.hexval Sample.abspath Sample.dirname
               Sample.join Sample.build Sample.getsize stdout_closed
               plain_env Sample.empty_disk))).
Proof.
  destruct
    (errors_propagate Sample.Disk Sample.hexval Sample.abspath Sample.dirname
       Sample.join Sample.build Sample.getsize stdout_closed
       plain_env Sample.empty_disk)
    as (Hraise & _ & _).
  split; [vm_compute; reflexivity |].
  apply Hraise. vm_compute. reflexivity.
Defined.

Lemma journey_row_data_slice_witness :
  snd (for_loop Sample.Disk (range 3)
         (journey_cell_e Sample.Disk stdout_closed journey_steps 1) []
         (mkRun Sample.Disk [] Sample.empty_disk [] [])) =
  Ok (map journey_box (row_steps journey_steps 1) ++
      repeat empty_cell (3 - length (row_steps journey_steps 1))).
Proof.
  destruct
    (journey_row_data_slice Sample.Disk stdout_closed journey_steps 1
       (mkRun Sample.Disk [] Sample.empty_disk [] []) (Forall_nil _))
    as [added [_ Hend]].
  destruct (snd (for_loop Sample.Disk (range 3)
                   (journey_cell_e Sample.Disk stdout_closed journey_steps 1) []
                   (mkRun Sample.Disk [] Sample.empty_disk [] [])))
    as [row_data | e] eqn:E.
  - destruct Hend as (_ & -> & _). reflexivity.
  - vm_compute in E. discriminate E.
Defined.
